(** * BlogSummarizer: the submission handler of [src/App.tsx]

    A shallow embedding of the [BlogSummarizer] component: the submit
    handler [handleSubmit], the title extractor [extractTitle], the URL
    validator [isValidUrl] and the three clipboard handlers, over a small
    model of the JavaScript values and platform calls they use. *)

From Stdlib Require Import List String Ascii NArith ZArith QArith Qround Bool Lia.
Import ListNotations.

Set Implicit Arguments.

(** ** JavaScript strings

    A JavaScript string is a sequence of UTF-16 code units.  The literals
    of the source are all ASCII, and are written with [lit]. *)

Module JS.

Definition jsstring := list N.

Definition lit (s : string) : jsstring :=
  map N_of_ascii (list_ascii_of_string s).

Definition jsstring_eqb (a b : jsstring) : bool :=
  if list_eq_dec N.eq_dec a b then true else false.

(** ECMAScript WhiteSpace and LineTerminator code points, the set that
    [String.prototype.trim] strips. *)
Definition is_white_space (c : N) : bool :=
  ((c =? 0x09) || (c =? 0x0A) || (c =? 0x0B) || (c =? 0x0C) || (c =? 0x0D)
   || (c =? 0x20) || (c =? 0xA0) || (c =? 0x1680)
   || ((0x2000 <=? c) && (c <=? 0x200A))
   || (c =? 0x2028) || (c =? 0x2029) || (c =? 0x202F) || (c =? 0x205F)
   || (c =? 0x3000) || (c =? 0xFEFF))%N.

Fixpoint trimStart (s : jsstring) : jsstring :=
  match s with
  | [] => []
  | c :: r => if is_white_space c then trimStart r else s
  end.

Definition trimEnd (s : jsstring) : jsstring := rev (trimStart (rev s)).

(** [s.trim()] *)
Definition trim (s : jsstring) : jsstring := trimEnd (trimStart s).

(** [s.split(sep)] for a separator of one code unit and no limit: the
    pieces between the occurrences of [sep], empty pieces included; the
    empty string gives one empty piece. *)
Fixpoint split (sep : N) (s : jsstring) : list jsstring :=
  match s with
  | [] => [[]]
  | c :: r =>
      if (c =? sep)%N then [] :: split sep r
      else match split sep r with
           | p :: ps => (c :: p) :: ps
           | [] => [[c]]
           end
  end.

(** [words.join(sep)], the inverse direction of [split]. *)
Fixpoint join (sep : N) (pieces : list jsstring) : jsstring :=
  match pieces with
  | [] => []
  | [p] => p
  | p :: ps => p ++ sep :: join sep ps
  end.

Definition SPACE : N := 0x20.

(** [Math.ceil(n / d)] on an array length [n] and a positive constant [d].
    The quotient of the source is a double; for lengths below 2^53 its
    rounding cannot cross an integer, so the ceiling is the one of the
    rational quotient. *)
Definition Math_ceil_div (n d : Z) : Z := Qceiling (inject_Z n / inject_Z d).

(** Truthiness of a string operand of [!] and [||]. *)
Definition truthy (s : jsstring) : bool :=
  match s with [] => false | _ :: _ => true end.

End JS.
Import JS.

(** ** The platform's URL constructor

    [new URL(string)] runs the URL Standard's basic URL parser without a
    base URL and throws a [TypeError] when it fails.  The parser is
    embedded up to the point where the scheme is known: the scheme start
    and scheme states, the failure of the no-scheme state, and the opaque
    path state, which cannot fail.  The states that read an authority, a
    host and a hierarchical path are the platform's and are taken from the
    environment. *)

Module URLParser.

Record URLRecord := { scheme : jsstring; host : option jsstring }.

Definition is_c0_control_or_space (c : N) : bool := (c <=? 0x20)%N.

Definition is_ascii_tab_or_newline (c : N) : bool :=
  ((c =? 0x09) || (c =? 0x0A) || (c =? 0x0D))%N.

Definition is_ascii_upper_alpha (c : N) : bool := ((0x41 <=? c) && (c <=? 0x5A))%N.
Definition is_ascii_lower_alpha (c : N) : bool := ((0x61 <=? c) && (c <=? 0x7A))%N.
Definition is_ascii_alpha (c : N) : bool :=
  is_ascii_upper_alpha c || is_ascii_lower_alpha c.
Definition is_ascii_digit (c : N) : bool := ((0x30 <=? c) && (c <=? 0x39))%N.

Definition ascii_lowercase (c : N) : N :=
  if is_ascii_upper_alpha c then (c + 0x20)%N else c.

(** ASCII alphanumeric, U+002B (+), U+002D (-) or U+002E (.) *)
Definition is_scheme_char (c : N) : bool :=
  (is_ascii_alpha c || is_ascii_digit c
   || (c =? 0x2B) || (c =? 0x2D) || (c =? 0x2E))%N.

Fixpoint strip_leading (s : jsstring) : jsstring :=
  match s with
  | [] => []
  | c :: r => if is_c0_control_or_space c then strip_leading r else s
  end.

(** Steps 1 and 2 of the parser: leading and trailing C0 controls and
    spaces are removed, then every ASCII tab and newline. *)
Definition preprocess (input : jsstring) : jsstring :=
  filter (fun c => negb (is_ascii_tab_or_newline c))
         (rev (strip_leading (rev (strip_leading input)))).

(** Scheme state: reads scheme characters into the buffer up to the
    colon.  Any other character, or the end of the input, restarts in the
    no-scheme state, which fails without a base URL. *)
Fixpoint scheme_state (buffer input : jsstring) : option (jsstring * jsstring) :=
  match input with
  | [] => None
  | c :: remaining =>
      if is_scheme_char c then scheme_state (buffer ++ [ascii_lowercase c]) remaining
      else if (c =? 0x3A)%N then Some (buffer, remaining)
      else None
  end.

(** Scheme start state. *)
Definition scheme_start_state (input : jsstring) : option (jsstring * jsstring) :=
  match input with
  | c :: remaining =>
      if is_ascii_alpha c then scheme_state [ascii_lowercase c] remaining else None
  | [] => None
  end.

Definition special_schemes : list jsstring :=
  map lit ["ftp"; "file"; "http"; "https"; "ws"; "wss"]%string.

Definition is_special (sch : jsstring) : bool :=
  existsb (jsstring_eqb sch) special_schemes.

Definition starts_with_slash (s : jsstring) : bool :=
  match s with c :: _ => (c =? 0x2F)%N | [] => false end.

(** [authority_states sch remaining] stands for the platform's states
    after the scheme when the scheme is special (the file scheme
    included) or the remaining input starts with a slash: [None] is a
    parse failure, [Some h] a parsed URL whose host is [h]. *)
Definition parse (authority_states : jsstring -> jsstring -> option (option jsstring))
    (input : jsstring) : option URLRecord :=
  match scheme_start_state (preprocess input) with
  | None => None
  | Some (sch, remaining) =>
      if is_special sch || starts_with_slash remaining then
        match authority_states sch remaining with
        | Some h => Some {| scheme := sch; host := h |}
        | None => None
        end
      else
        (* opaque path state, then query and fragment states: no failure *)
        Some {| scheme := sch; host := None |}
  end.

(** What the [host] getter shows: a URL without a host, or with the empty
    host, has none. *)
Definition has_host (u : URLRecord) : bool :=
  match host u with Some h => truthy h | None => false end.

Definition has_scheme (u : URLRecord) : bool := truthy (scheme u).

End URLParser.

(** ** Values of the component *)

(** [interface Summary] *)
Module Summary.
Record t := {
  url : jsstring;
  title : jsstring;
  summary : jsstring;
  urduSummary : jsstring;
  wordCount : Z;
  readingTime : Z
}.
End Summary.

(** What [scrapeAndSummarize] resolves to, by its declared type. *)
Module Scraped.
Record t := { summary : jsstring; urduSummary : jsstring }.
End Scraped.

(** A thrown value, as the [catch] clause of [handleSubmit] tells them
    apart with [error instanceof Error]. *)
Inductive Thrown :=
| ErrorInstance (message : jsstring)
| NotAnError.

(** How a call, or an awaited promise, ends: with a value, with a thrown
    value (a rejection), or never (a promise that stays pending: the code
    sets no timeout). *)
Inductive Outcome (A : Type) :=
| Returns (a : A)
| Throws (t : Thrown)
| Pending.
Arguments Throws {A} t.
Arguments Pending {A}.

(** A value read from the decoded response.  [VOther] is a number, a
    boolean or an array, kept with its string conversion. *)
Inductive JsValue :=
| VUndefined
| VNull
| VString (s : jsstring)
| VObject
| VOther (image : jsstring).

(** The value [response.json()] resolves to, as far as [data.contents]
    reads it: [null], or any other value with its [contents] property
    ([VUndefined] when it has none). *)
Inductive Json :=
| DataNull
| Data (contents : JsValue).

Record Response := { ok : bool; json : Outcome Json }.

(** The parsed document, as far as [querySelector('title')] looks at it:
    the text content of its [title] elements in document order. *)
Record Document := { title_elements : list jsstring }.

(** Modelled from the spec: the Summarization Adapter, the function
    [scrapeAndSummarize] that the component imports from
    [../services/blogService] and whose source is not among the files at
    hand.  Given a URL it makes one request and resolves to an object
    [{summary, urduSummary}], or raises; as any awaited call it may also
    never settle. *)
Definition SummarizationAdapter : Type := jsstring -> Outcome Scraped.t.

(** The platform and the services the component calls. *)
Record Env := {
  authority_states : jsstring -> jsstring -> option (option jsstring);
  encodeURIComponent : jsstring -> option jsstring; (* [None]: URIError *)
  fetch : jsstring -> Outcome Response;
  parseFromString : jsstring -> Document;
  scrapeAndSummarize : SummarizationAdapter
}.

(** ** Effects

    The handlers are event-driven: what they do is the sequence of calls
    they make on the platform, on the toast library and on the state
    setters of [useState].  A computation carries the events it has
    emitted so far and how it ended. *)

Inductive Event :=
| PreventDefault
| ToastError (msg : jsstring)
| ToastSuccess (msg : jsstring)
| ConsoleError (label : jsstring) (error : Thrown)
| NewURL (input : jsstring)
| Fetch (resource : jsstring)
| ResponseJson
| ScrapeAndSummarize (target : jsstring)
| SetIsLoading (b : bool)
| SetError (msg : jsstring)
| SetSummary (s : option Summary.t)
| ClipboardWriteText (text : jsstring).

Definition Async (A : Type) : Type := list Event * Outcome A.

Definition ret {A} (a : A) : Async A := ([], Returns a).

Definition bind {A B} (c : Async A) (k : A -> Async B) : Async B :=
  match c with
  | (l, Returns a) => let (l', o) := k a in (l ++ l', o)
  | (l, Throws t) => (l, Throws t)
  | (l, Pending) => (l, Pending)
  end.

Definition emit (e : Event) : Async unit := ([e], Returns tt).

(** A call on the platform: the event, then the call's outcome. *)
Definition call {A} (e : Event) (o : Outcome A) : Async A := ([e], o).

Definition throw {A} (t : Thrown) : Async A := ([], Throws t).

(** [try { body } catch (error) { handler }] *)
Definition try_catch {A} (body : Async A) (handler : Thrown -> Async A) : Async A :=
  match body with
  | (l, Throws t) => let (l', o) := handler t in (l ++ l', o)
  | _ => body
  end.

(** [try { body } finally { fin }]: the finalizer runs when the body has
    completed, normally or not; its own abrupt completion wins. *)
Definition try_finally {A} (body : Async A) (fin : Async unit) : Async A :=
  match body with
  | (l, Pending) => (l, Pending)
  | (l, o) =>
      let (l', o') := fin in
      (l ++ l', match o' with
                | Returns _ => o
                | Throws t => Throws t
                | Pending => Pending
                end)
  end.

Declare Scope async_scope.
Delimit Scope async_scope with async.
Notation "x <- c ;; k" := (bind c (fun x => k))
  (at level 100, c at next level, right associativity) : async_scope.
Notation "c ;; k" := (bind c (fun _ => k))
  (at level 100, right associativity) : async_scope.
Local Open Scope async_scope.

Definition log {A} (c : Async A) : list Event := fst c.
Definition outcome {A} (c : Async A) : Outcome A := snd c.

(** ** The component *)

(** The four [useState] variables of [BlogSummarizer]. *)
Record State := {
  url : jsstring;
  isLoading : bool;
  summary : option Summary.t;
  error : jsstring
}.

(** A setter call replaces its variable; every other event leaves the
    state alone.  The handler itself reads only [url], from the render it
    was created in; the setter calls take effect in the order they are
    made. *)
Definition apply_event (st : State) (e : Event) : State :=
  match e with
  | SetIsLoading b =>
      {| url := url st; isLoading := b; summary := summary st; error := error st |}
  | SetError m =>
      {| url := url st; isLoading := isLoading st; summary := summary st; error := m |}
  | SetSummary s =>
      {| url := url st; isLoading := isLoading st; summary := s; error := error st |}
  | _ => st
  end.

Definition replay (st : State) (l : list Event) : State := fold_left apply_event l st.

Definition is_network (e : Event) : bool :=
  match e with
  | Fetch _ | ResponseJson | ScrapeAndSummarize _ => true
  | _ => false
  end.

Definition is_setter (e : Event) : bool :=
  match e with
  | SetIsLoading _ | SetError _ | SetSummary _ => true
  | _ => false
  end.

Definition is_url_parse (e : Event) : bool :=
  match e with NewURL _ => true | _ => false end.

(** The specification's request state, read off the four variables the
    way the render does: the loading card is shown under [isLoading], the
    result cards under a non-null [summary], the alert under a non-empty
    [error]. *)
Inductive RequestState :=
| Idle
| Loading
| Success (r : Summary.t)
| Failed (message : jsstring).

Definition request_state (st : State) : RequestState :=
  if isLoading st then Loading
  else match summary st with
       | Some r => Success r
       | None => if truthy (error st) then Failed (error st) else Idle
       end.

Definition ToString (v : JsValue) : jsstring :=
  match v with
  | VUndefined => lit "undefined"
  | VNull => lit "null"
  | VString s => s
  | VObject => lit "[object Object]"
  | VOther image => image
  end.

(** [doc.querySelector('title')?.textContent] *)
Definition querySelector_title_textContent (doc : Document) : option jsstring :=
  hd_error (title_elements doc).

(** [x || 'Untitled'] on an optional string: the right operand when the
    left one is [undefined] or the empty string. *)
Definition or_default (x : option jsstring) (d : jsstring) : jsstring :=
  match x with
  | Some s => if truthy s then s else d
  | None => d
  end.

Definition proxy_prefix : jsstring := lit "https://api.allorigins.win/get?url=".

Arguments proxy_prefix : simpl never.
Arguments lit : simpl never.

Section Component.

Variable env : Env.

(** [new URL(string)] *)
Definition new_URL (s : jsstring) : option URLParser.URLRecord :=
  URLParser.parse (authority_states env) s.

Definition isValidUrl (s : jsstring) : Async bool :=
  try_catch
    (_ <- call (NewURL s)
            (match new_URL s with
             | Some u => Returns u
             | None => Throws (ErrorInstance (lit "Invalid URL"))
             end) ;;
     ret true)
    (fun _ => ret false).

(** [data.contents]: a [TypeError] on [null]; the message is the
    engine's and reaches only the console. *)
Definition get_contents (data : Json) : Async JsValue :=
  match data with
  | DataNull => throw (ErrorInstance (lit "Cannot read properties of null (reading 'contents')"))
  | Data c => ret c
  end.

Definition extractTitle (u : jsstring) : Async jsstring :=
  try_catch
    (q <- match encodeURIComponent env u with
          | Some q => ret q
          | None => throw (ErrorInstance (lit "URI malformed"))
          end ;;
     response <- call (Fetch (proxy_prefix ++ q)) (fetch env (proxy_prefix ++ q)) ;;
     data <- call ResponseJson (json response) ;;
     contents <- get_contents data ;;
     let doc := parseFromString env (ToString contents) in
     let title := or_default (querySelector_title_textContent doc) (lit "Untitled") in
     ret (trim title))
    (fun error =>
       emit (ConsoleError (lit "Error extracting title:") error) ;;
       ret (lit "Blog Post")).

(** The object literal [summaryData]. *)
Definition summaryData (u title : jsstring) (scrapedData : Scraped.t) : Summary.t :=
  {| Summary.url := u;
     Summary.title := title;
     Summary.summary := Scraped.summary scrapedData;
     Summary.urduSummary := Scraped.urduSummary scrapedData;
     Summary.wordCount := Z.of_nat (List.length (split SPACE (Scraped.summary scrapedData)));
     Summary.readingTime :=
       Math_ceil_div (Z.of_nat (List.length (split SPACE (Scraped.summary scrapedData)))) 200 |}.

(** [error instanceof Error ? error.message : 'Failed to process blog'] *)
Definition error_message (t : Thrown) : jsstring :=
  match t with
  | ErrorInstance message => message
  | NotAnError => lit "Failed to process blog"
  end.

(** The [try] block of [handleSubmit]. *)
Definition process (u : jsstring) : Async unit :=
  title <- extractTitle u ;;
  scrapedData <- call (ScrapeAndSummarize u) (scrapeAndSummarize env u) ;;
  emit (SetSummary (Some (summaryData u title scrapedData))) ;;
  emit (ToastSuccess (lit "Blog summarized successfully!")).

(** Its [catch] clause. *)
Definition on_error (error : Thrown) : Async unit :=
  emit (ConsoleError (lit "Error:") error) ;;
  emit (SetError (error_message error)) ;;
  emit (ToastError (lit "Failed to process blog")).

(** The whole [try]/[catch]/[finally] statement. *)
Definition attempt (u : jsstring) : Async unit :=
  try_finally
    (try_catch (process u) on_error)
    (emit (SetIsLoading false)).

Definition handleSubmit (st : State) : Async unit :=
  emit PreventDefault ;;
  if negb (truthy (trim (url st))) then
    emit (ToastError (lit "Please enter a blog URL"))
  else
    valid <- isValidUrl (url st) ;;
    if negb valid then
      emit (ToastError (lit "Please enter a valid URL"))
    else
      emit (SetIsLoading true) ;;
      emit (SetError []) ;;
      emit (SetSummary None) ;;
      attempt (url st).

(** The state after the handler, from the state it was called in. *)
Definition submit (st : State) : State := replay st (log (handleSubmit st)).

End Component.

(** The three [onClick] handlers of the copy buttons; the buttons are
    rendered under [summary &&], for the record on display. *)
Definition onCopySummary (s : Summary.t) : Async unit :=
  emit (ClipboardWriteText (Summary.summary s)) ;;
  emit (ToastSuccess (lit "Summary copied to clipboard!")).

Definition full_summary_header : jsstring :=
  lit "Blog Summary" ++ [0x0A; 0x0A]%N.

Definition onCopyFullSummary (s : Summary.t) : Async unit :=
  let text := full_summary_header ++ Summary.summary s in
  emit (ClipboardWriteText text) ;;
  emit (ToastSuccess (lit "Full summary copied!")).

Definition onCopyUrdu (s : Summary.t) : Async unit :=
  emit (ClipboardWriteText (Summary.urduSummary s)) ;;
  emit (ToastSuccess (lit "Urdu translation copied!")).

Definition copy_handlers (st : State) : list (Async unit) :=
  match summary st with
  | Some s => [onCopySummary s; onCopyFullSummary s; onCopyUrdu s]
  | None => []
  end.

(** The texts handed to [navigator.clipboard.writeText]. *)
Fixpoint clipboard_writes (l : list Event) : list jsstring :=
  match l with
  | [] => []
  | ClipboardWriteText t :: r => t :: clipboard_writes r
  | _ :: r => clipboard_writes r
  end.

(** The records a run of the handler hands to [setSummary]. *)
Fixpoint stored_records (l : list Event) : list Summary.t :=
  match l with
  | [] => []
  | SetSummary (Some r) :: rest => r :: stored_records rest
  | _ :: rest => stored_records rest
  end.

(** ** The specification's notions *)

(** The number of whitespace-separated tokens of a string: its maximal
    runs of non-whitespace code units. *)
Fixpoint count_tokens (in_token : bool) (s : jsstring) : nat :=
  match s with
  | [] => 0
  | c :: r =>
      if is_white_space c then count_tokens false r
      else (if in_token then 0 else 1) + count_tokens true r
  end.

Definition whitespace_token_count (s : jsstring) : nat := count_tokens false s.

(** A word: not empty, and no whitespace in it. *)
Definition is_word (w : jsstring) : Prop :=
  w <> [] /\ Forall (fun c => is_white_space c = false) w.

Definition count_spaces (s : jsstring) : nat :=
  List.length (filter (fun c => (c =? SPACE)%N) s).

(** The proxy answered and its body was decoded and parsed into [doc]. *)
Inductive Fetched (env : Env) (u : jsstring) (r : Response) (doc : Document) : Prop :=
| fetched_document (q : jsstring) (c : JsValue) :
    encodeURIComponent env u = Some q ->
    fetch env (proxy_prefix ++ q) = Returns r ->
    json r = Returns (Data c) ->
    doc = parseFromString env (ToString c) ->
    Fetched env u r doc.



Definition BLOG_POST : jsstring := lit "Blog Post".
Definition UNTITLED : jsstring := lit "Untitled".


(** Section 4.1 as written: accepted exactly when the string parses as an
    absolute URL with a scheme and a host. *)
Definition validator_as_specified (env : Env) (s : jsstring) : Prop :=
  outcome (isValidUrl env s) = Returns true <->
  exists u, new_URL env s = Some u
            /\ URLParser.has_scheme u = true /\ URLParser.has_host u = true.

(** The summarization call is made during the run, and how it ends. *)
Definition summarization_called (env : Env) (st : State) : Prop :=
  In (ScrapeAndSummarize (url st)) (log (handleSubmit env st)).

Definition summarization_fails (env : Env) (st : State) (t : Thrown) : Prop :=
  summarization_called env st /\ scrapeAndSummarize env (url st) = Throws t.


(** Section 8 as written: a failed summarization gives [Failed] with a
    non-empty message. *)
Definition failure_state_as_specified (env : Env) (st : State) : Prop :=
  forall t, summarization_fails env st t ->
  exists message, message <> [] /\ request_state (submit env st) = Failed message.


(** Section 3 as written: [wordCount] is the whitespace-token count. *)
Definition wordCount_as_specified (env : Env) (st : State) : Prop :=
  forall r, In r (stored_records (log (handleSubmit env st))) ->
  Summary.wordCount r = Z.of_nat (whitespace_token_count (Summary.summary r)).

(** The form is submitted with a well-formed URL: both guards of
    [handleSubmit] let it through. *)
Definition well_formed (env : Env) (st : State) : Prop :=
  truthy (trim (url st)) = true /\ new_URL env (url st) <> None.

(** The submission is turned away by one of the two guards. *)
Definition rejected (env : Env) (st : State) : Prop :=
  truthy (trim (url st)) = false \/ new_URL env (url st) = None.

(** ** A sample platform for the worked examples *)

Definition sample_url : jsstring := lit "https://example.com/post".

(** The one hierarchical URL of the examples, with its host. *)
Definition sample_authority_states (sch remaining : jsstring) : option (option jsstring) :=
  if jsstring_eqb sch (lit "https") && jsstring_eqb remaining (lit "//example.com/post")
  then Some (Some (lit "example.com")) else None.

Definition sample_encodeURIComponent (u : jsstring) : option jsstring :=
  if jsstring_eqb u sample_url then Some (lit "https%3A%2F%2Fexample.com%2Fpost") else None.

Definition sample_env (title_fetch : Outcome Response) (doc : Document)
    (scraped : Outcome Scraped.t) : Env :=
  {| authority_states := sample_authority_states;
     encodeURIComponent := sample_encodeURIComponent;
     fetch := fun _ => title_fetch;
     parseFromString := fun _ => doc;
     scrapeAndSummarize := fun _ => scraped |}.

Definition page_response (is_ok : bool) (html : jsstring) : Outcome Response :=
  Returns {| ok := is_ok; json := Returns (Data (VString html)) |}.

Definition titled_doc : Document := {| title_elements := [lit "  My Post "] |}.

Definition scraped (s : jsstring) : Outcome Scraped.t :=
  Returns {| Scraped.summary := s; Scraped.urduSummary := lit "khulasa" |}.

Definition submitted (u : jsstring) : State :=
  {| url := u; isLoading := false; summary := None; error := [] |}.

(** A state left by an earlier, successful submission. *)
Definition earlier_record : Summary.t :=
  {| Summary.url := lit "https://example.com/old";
     Summary.title := lit "Old";
     Summary.summary := lit "old summary";
     Summary.urduSummary := lit "purana";
     Summary.wordCount := 2;
     Summary.readingTime := 1 |}.

Definition resubmitted (u : jsstring) : State :=
  {| url := u; isLoading := false; summary := Some earlier_record; error := [] |}.

(** Every call works: the page has a title, the summary arrives. *)
Definition env_ok (s : jsstring) : Env :=
  sample_env (page_response true (lit "<title>  My Post </title>")) titled_doc (scraped s).




(** The summarization call throws [t]. *)
Definition env_summarization_throws (t : Thrown) : Env :=
  sample_env (page_response true (lit "<title>  My Post </title>")) titled_doc (Throws t).

(** The words [w], [n] times, joined by single spaces. *)
Definition repeated_words (w : jsstring) (n : nat) : jsstring := join SPACE (repeat w n).

(** Two one-letter lines: two tokens, no space. *)
Definition two_lines : jsstring := lit "a" ++ [0x0A%N] ++ lit "b".

(** The thrown value carries a message for the alert. *)
Definition has_message (t : Thrown) : bool :=
  match t with
  | ErrorInstance message => truthy message
  | NotAnError => true
  end.

(** The state each network call of a run is made in. *)
Fixpoint network_snapshots (st : State) (l : list Event) : list State :=
  match l with
  | [] => []
  | e :: r => (if is_network e then [st] else []) ++ network_snapshots (apply_event st e) r
  end.

(** The events of the proxy call of the title extractor. *)
Definition is_proxy_call (e : Event) : bool :=
  match e with
  | Fetch _ | ResponseJson => true
  | _ => false
  end.

(** ** The runs of the handler

    The events up to the [try] statement of a submission that passed both
    guards, and the six ways a run of [handleSubmit] can go. *)

Definition entry (u : jsstring) : list Event :=
  [PreventDefault; NewURL u; SetIsLoading true; SetError []; SetSummary None].

Definition failure_events (u : jsstring) (t : Thrown) : list Event :=
  [ScrapeAndSummarize u; ConsoleError (lit "Error:") t; SetError (error_message t);
   ToastError (lit "Failed to process blog"); SetIsLoading false].

Definition success_events (u : jsstring) (r : Summary.t) : list Event :=
  [ScrapeAndSummarize u; SetSummary (Some r);
   ToastSuccess (lit "Blog summarized successfully!"); SetIsLoading false].

(** The states a run goes through. *)
Definition loading_state (st : State) : State :=
  {| url := url st; isLoading := true; summary := None; error := [] |}.

Definition success_state (st : State) (r : Summary.t) : State :=
  {| url := url st; isLoading := false; summary := Some r; error := [] |}.

Definition failed_state (st : State) (message : jsstring) : State :=
  {| url := url st; isLoading := false; summary := None; error := message |}.

(** The events of the title extractor. *)
Definition is_title_event (e : Event) : bool :=
  match e with
  | Fetch _ | ResponseJson | ConsoleError _ _ => true
  | _ => false
  end.

Inductive Run (env : Env) (st : State) : Async unit -> Prop :=
| run_empty :
    truthy (trim (url st)) = false ->
    Run env st ([PreventDefault; ToastError (lit "Please enter a blog URL")], Returns tt)
| run_invalid :
    truthy (trim (url st)) = true ->
    new_URL env (url st) = None ->
    Run env st ([PreventDefault; NewURL (url st);
                 ToastError (lit "Please enter a valid URL")], Returns tt)
| run_title_pending :
    well_formed env st ->
    outcome (extractTitle env (url st)) = Pending ->
    Run env st (entry (url st) ++ log (extractTitle env (url st)), Pending)
| run_summarization_pending (title : jsstring) :
    well_formed env st ->
    outcome (extractTitle env (url st)) = Returns title ->
    scrapeAndSummarize env (url st) = Pending ->
    Run env st (entry (url st) ++ log (extractTitle env (url st))
                  ++ [ScrapeAndSummarize (url st)], Pending)
| run_failed (title : jsstring) (t : Thrown) :
    well_formed env st ->
    outcome (extractTitle env (url st)) = Returns title ->
    scrapeAndSummarize env (url st) = Throws t ->
    Run env st (entry (url st) ++ log (extractTitle env (url st))
                  ++ failure_events (url st) t, Returns tt)
| run_summarized (title : jsstring) (d : Scraped.t) :
    well_formed env st ->
    outcome (extractTitle env (url st)) = Returns title ->
    scrapeAndSummarize env (url st) = Returns d ->
    Run env st (entry (url st) ++ log (extractTitle env (url st))
                  ++ success_events (url st) (summaryData (url st) title d),
                Returns tt).

(** ** The render

    What the component returns for a state, as far as the state decides
    it: the form card with its two [disabled] attributes, and the cards
    under [isLoading &&], [error &&] and the two [summary &&]. *)

Inductive Panel :=
| FormCard (input_disabled button_disabled : bool)
| LoadingCard
| ErrorAlert (message : jsstring)
| SummaryCard (r : Summary.t)
| QuickActionsCard (r : Summary.t).

Definition render (st : State) : list Panel :=
  [FormCard (isLoading st) (isLoading st || negb (truthy (trim (url st))))]
  ++ (if isLoading st then [LoadingCard] else [])
  ++ (if truthy (error st) then [ErrorAlert (error st)] else [])
  ++ match summary st with Some r => [SummaryCard r] | None => [] end
  ++ match summary st with Some r => [QuickActionsCard r] | None => [] end.

(** The cards that tell how the request stands. *)
Definition is_status_panel (p : Panel) : bool :=
  match p with
  | LoadingCard | ErrorAlert _ | SummaryCard _ => true
  | _ => false
  end.

Definition status_panels (st : State) : list Panel := filter is_status_panel (render st).

(** ** Measures on logs and strings *)

Definition is_toast (e : Event) : bool :=
  match e with
  | ToastError _ | ToastSuccess _ => true
  | _ => false
  end.

Definition is_fetch (e : Event) : bool :=
  match e with Fetch _ => true | _ => false end.

Definition is_summarization (e : Event) : bool :=
  match e with ScrapeAndSummarize _ => true | _ => false end.


Definition is_success_toast (e : Event) : bool :=
  match e with ToastSuccess _ => true | _ => false end.

(** The string starts or ends with a whitespace code unit. *)
Definition starts_or_ends_with_white_space (s : jsstring) : bool :=
  match s with
  | [] => false
  | c :: _ => is_white_space c || is_white_space (last s c)
  end.

Definition has_colon (s : jsstring) : bool := existsb (fun c => (c =? 0x3A)%N) s.

(** A page whose only title element holds three spaces. *)
Definition blank_titled_doc : Document := {| title_elements := [lit "   "] |}.

Definition env_blank_title (s : jsstring) : Env :=
  sample_env (page_response true (lit "<title>   </title>")) blank_titled_doc (scraped s).

(** A state showing an error and an earlier result at once. *)
Definition cluttered (u : jsstring) : State :=
  {| url := u; isLoading := false; summary := Some earlier_record;
     error := lit "old error" |}.

(** Section 8 as written: the reading time is the ceiling of the word
    count over 200, and a summary of 600 words, its words being its
    whitespace-separated tokens, reads in 3 minutes, one of 4 words in 1. *)
Definition readingTime_as_specified (env : Env) (st : State) : Prop :=
  forall r, In r (stored_records (log (handleSubmit env st))) ->
  Summary.readingTime r = Math_ceil_div (Summary.wordCount r) 200
  /\ (whitespace_token_count (Summary.summary r) = 600%nat -> Summary.readingTime r = 3%Z)
  /\ (whitespace_token_count (Summary.summary r) = 4%nat -> Summary.readingTime r = 1%Z).

(** The word [w], [n] times, one per line. *)
Definition words_per_line (w : jsstring) (n : nat) : jsstring := join 0x0A%N (repeat w n).

(** The word [w], [n] times, joined by single spaces, and a space at the
    end. *)
Definition words_then_space (w : jsstring) (n : nat) : jsstring :=
  repeated_words w n ++ [SPACE].

(** ** Proof steps *)

(** One step of a run: evaluate the monad, keep the literals folded. *)
Ltac run_step := cbn -[proxy_prefix lit].
Tactic Notation "run_step" "in" "*" := cbn -[proxy_prefix lit] in *.

(** Membership in the log of a concrete run, by evaluating the run. *)
Ltac in_log := vm_compute; repeat (first [left; reflexivity | right]).

(** * Properties *)

(** ** Strings and numbers *)

Example split_four_words : List.length (split SPACE (lit "a b c d")) = 4%nat.
Proof. reflexivity. Qed.

Example split_empty_string : split SPACE [] = [[]].
Proof. reflexivity. Qed.

Example split_double_space : split SPACE (lit "a  b") = [lit "a"; []; lit "b"].
Proof. reflexivity. Qed.

Example trim_inner_space_kept : trim (lit "  My Post ") = lit "My Post".
Proof. reflexivity. Qed.

Lemma split_not_nil (sep : N) (s : jsstring) : split sep s <> [].
Proof.
  destruct s as [|c r]; simpl; [discriminate|].
  destruct (c =? sep)%N; [discriminate|].
  destruct (split sep r); discriminate.
Qed.

(** One piece more than there are separators. *)
Lemma length_split (sep : N) (s : jsstring) :
  List.length (split sep s) = S (List.length (filter (fun c => (c =? sep)%N) s)).
Proof.
  induction s as [|c r IH]; simpl; [reflexivity|].
  destruct (c =? sep)%N; simpl.
  - now rewrite IH.
  - destruct (split sep r) as [|p ps] eqn:E.
    + now destruct (split_not_nil sep r).
    + exact IH.
Qed.

Lemma split_free (sep : N) (w : jsstring) :
  ~ In sep w -> split sep w = [w].
Proof.
  induction w as [|c r IH]; simpl; intros H; [reflexivity|].
  destruct (N.eqb_spec c sep) as [->|_].
  - exfalso; apply H; now left.
  - rewrite IH; [reflexivity|]. intros In'; apply H; now right.
Qed.

Lemma split_app_sep (sep : N) (w rest : jsstring) :
  ~ In sep w -> split sep (w ++ sep :: rest) = w :: split sep rest.
Proof.
  induction w as [|c r IH]; simpl; intros H.
  - now rewrite N.eqb_refl.
  - destruct (N.eqb_spec c sep) as [->|_].
    + exfalso; apply H; now left.
    + rewrite IH; [reflexivity|]. intros In'; apply H; now right.
Qed.

(** Splitting what [join] put together gives the pieces back, when no
    piece holds the separator. *)
Lemma split_join (sep : N) (pieces : list jsstring) :
  pieces <> [] -> Forall (fun w => ~ In sep w) pieces ->
  split sep (join sep pieces) = pieces.
Proof.
  induction pieces as [|w ws IH]; intros Hne Hfree; [congruence|].
  inversion Hfree as [|? ? Hw Hws]; subst.
  destruct ws as [|w' ws'].
  - simpl. now apply split_free.
  - change (join sep (w :: w' :: ws')) with (w ++ sep :: join sep (w' :: ws')).
    rewrite split_app_sep by assumption.
    rewrite IH; [reflexivity|discriminate|assumption].
Qed.

Lemma is_word_no_space (w : jsstring) : is_word w -> ~ In SPACE w.
Proof.
  intros [_ Hw] Hin. rewrite Forall_forall in Hw.
  specialize (Hw _ Hin). discriminate.
Qed.

Lemma count_tokens_word (b : bool) (w rest : jsstring) :
  is_word w ->
  count_tokens b (w ++ rest)
  = ((if b then 0 else 1) + count_tokens true rest)%nat.
Proof.
  intros [Hne Hw]. revert b.
  induction w as [|c r IH]; intros b; [congruence|].
  inversion Hw as [|? ? Hc Hr]; subst. simpl. rewrite Hc.
  destruct r as [|c' r'].
  - reflexivity.
  - rewrite IH; [simpl; lia|discriminate|assumption].
Qed.

(** Words joined by single spaces: as many tokens as words. *)
Lemma count_tokens_join (b : bool) (words : list jsstring) :
  words <> [] -> Forall is_word words ->
  count_tokens b (join SPACE words)
  = ((if b then 0 else 1) + (List.length words - 1))%nat.
Proof.
  intros Hne Hall. revert b.
  induction words as [|w ws IH]; intros b; [congruence|].
  inversion Hall as [|? ? Hw Hws]; subst.
  destruct ws as [|w' ws'].
  - simpl. rewrite <- (app_nil_r w). rewrite count_tokens_word by assumption.
    simpl. lia.
  - change (join SPACE (w :: w' :: ws')) with (w ++ SPACE :: join SPACE (w' :: ws')).
    rewrite count_tokens_word by assumption.
    change (count_tokens true (SPACE :: join SPACE (w' :: ws')))
      with (count_tokens false (join SPACE (w' :: ws'))).
    rewrite IH; [simpl; lia|discriminate|assumption].
Qed.

(** The ceiling of the source, through integer division. *)
Lemma Math_ceil_div_200 (n : Z) : Math_ceil_div n 200 = (- ((- n) / 200))%Z.
Proof.
  unfold Math_ceil_div, Qceiling, Qfloor. simpl.
  rewrite Z.mul_1_r. reflexivity.
Qed.

(** [Math.ceil(n / 200)] is the least integer [k] with [n <= 200 k]. *)
Lemma Math_ceil_div_200_bounds (n : Z) :
  (200 * (Math_ceil_div n 200 - 1) < n <= 200 * Math_ceil_div n 200)%Z.
Proof.
  rewrite Math_ceil_div_200.
  pose proof (Z.div_mod (- n) 200 ltac:(lia)) as E.
  pose proof (Z.mod_pos_bound (- n) 200 ltac:(lia)) as B.
  lia.
Qed.

(** ** The event log and the state *)

Lemma replay_app (st : State) (l1 l2 : list Event) :
  replay st (l1 ++ l2) = replay (replay st l1) l2.
Proof. apply fold_left_app. Qed.

Lemma replay_no_setter (l : list Event) :
  Forall (fun e => is_setter e = false) l -> forall st, replay st l = st.
Proof.
  induction 1 as [|e l He _ IH]; intros st; [reflexivity|].
  simpl. destruct e; try discriminate; apply IH.
Qed.

Lemma title_event_not_setter (e : Event) :
  is_title_event e = true -> is_setter e = false.
Proof. destruct e; simpl; congruence. Qed.

Lemma stored_records_app (l1 l2 : list Event) :
  stored_records (l1 ++ l2) = stored_records l1 ++ stored_records l2.
Proof.
  induction l1 as [|e l IH]; [reflexivity|].
  destruct e as [| | | | | | | | | |[r|] |]; simpl; rewrite IH; reflexivity.
Qed.

Lemma stored_records_title_events (l : list Event) :
  Forall (fun e => is_title_event e = true) l -> stored_records l = [].
Proof.
  induction 1 as [|e l He _ IH]; [reflexivity|].
  destruct e; try discriminate; exact IH.
Qed.

(** ** The title extractor *)

Section Extractor.

Variable env : Env.
Variable u : jsstring.






(** With a fetched document, the [ok] flag of the response plays no part. *)
Lemma extractTitle_fetched (r : Response) (doc : Document) :
  Fetched env u r doc ->
  outcome (extractTitle env u)
  = Returns (trim (or_default (querySelector_title_textContent doc) UNTITLED)).
Proof.
  intros [q c H1 H2 H3 ->]. unfold extractTitle. rewrite H1. run_step. rewrite H2. run_step.
  rewrite H3. reflexivity.
Qed.

Lemma extractTitle_never_throws (t : Thrown) : outcome (extractTitle env u) <> Throws t.
Proof.
  unfold extractTitle.
  destruct (encodeURIComponent env u) as [q|]; run_step; [|discriminate].
  destruct (fetch env (proxy_prefix ++ q)) as [r| |]; run_step; try discriminate.
  destruct (json r) as [[|c]| |]; run_step; discriminate.
Qed.

Lemma extractTitle_events :
  Forall (fun e => is_title_event e = true) (log (extractTitle env u)).
Proof.
  unfold extractTitle.
  destruct (encodeURIComponent env u) as [q|]; run_step; [|repeat constructor].
  destruct (fetch env (proxy_prefix ++ q)) as [r| |]; run_step; try (repeat constructor).
  destruct (json r) as [[|c]| |]; run_step; repeat constructor.
Qed.

(** The extractor stays pending exactly when one of its two awaited
    promises does. *)
Lemma extractTitle_pending :
  outcome (extractTitle env u) = Pending <->
  exists q, encodeURIComponent env u = Some q
            /\ (fetch env (proxy_prefix ++ q) = Pending
                \/ exists r, fetch env (proxy_prefix ++ q) = Returns r /\ json r = Pending).
Proof.
  unfold extractTitle. split.
  - destruct (encodeURIComponent env u) as [q|]; run_step; [|discriminate].
    intros H. exists q. split; [reflexivity|].
    destruct (fetch env (proxy_prefix ++ q)) as [r| |]; run_step in *; try discriminate.
    + right. exists r. split; [reflexivity|].
      destruct (json r) as [[|c]| |]; run_step in *; try discriminate. reflexivity.
    + now left.
  - intros [q [H1 [H2|[r [H2 H3]]]]]; rewrite H1; run_step; rewrite H2; run_step.
    + reflexivity.
    + rewrite H3. reflexivity.
Qed.

End Extractor.

(** ** The submit handler *)

Section Handler.

Variable env : Env.

Lemma isValidUrl_run (s : jsstring) :
  isValidUrl env s
  = ([NewURL s], Returns (match new_URL env s with Some _ => true | None => false end)).
Proof. unfold isValidUrl. destruct (new_URL env s); reflexivity. Qed.

(** The [try] statement, by the outcome of its two awaited calls. *)
Lemma attempt_run (u : jsstring) :
  attempt env u =
  match outcome (extractTitle env u) with
  | Returns title =>
      match scrapeAndSummarize env u with
      | Returns d =>
          (log (extractTitle env u) ++ success_events u (summaryData u title d), Returns tt)
      | Throws t => (log (extractTitle env u) ++ failure_events u t, Returns tt)
      | Pending => (log (extractTitle env u) ++ [ScrapeAndSummarize u], Pending)
      end
  | Throws t => (log (extractTitle env u) ++ tl (failure_events u t), Returns tt)
  | Pending => (log (extractTitle env u), Pending)
  end.
Proof.
  unfold attempt, process.
  destruct (extractTitle env u) as [lt [title|t|]]; run_step.
  - destruct (scrapeAndSummarize env u) as [d|t|]; run_step;
      rewrite <- ?app_assoc; reflexivity.
  - rewrite <- ?app_assoc; reflexivity.
  - reflexivity.
Qed.

(** Past the two guards: the entry events, then the [try] statement. *)
Lemma handleSubmit_well_formed (st : State) :
  well_formed env st ->
  handleSubmit env st
  = (entry (url st) ++ log (attempt env (url st)), outcome (attempt env (url st))).
Proof.
  intros [Hne Hurl]. unfold handleSubmit. rewrite Hne. run_step.
  rewrite isValidUrl_run.
  destruct (new_URL env (url st)); [|congruence]. run_step.
  now destruct (attempt env (url st)).
Qed.

Theorem handleSubmit_run (st : State) : Run env st (handleSubmit env st).
Proof.
  unfold handleSubmit.
  destruct (truthy (trim (url st))) eqn:Hne; run_step.
  - rewrite isValidUrl_run.
    destruct (new_URL env (url st)) as [parsed|] eqn:Hurl; run_step.
    + assert (Hwf : well_formed env st) by (split; [assumption|congruence]).
      rewrite attempt_run.
      destruct (outcome (extractTitle env (url st))) as [title|t|] eqn:Ho.
      * destruct (scrapeAndSummarize env (url st)) as [d|t|] eqn:Hs.
        -- exact (run_summarized Hwf Ho Hs).
        -- exact (run_failed Hwf Ho Hs).
        -- exact (run_summarization_pending Hwf Ho Hs).
      * now destruct (extractTitle_never_throws env (url st) (t := t)).
      * exact (run_title_pending Hwf Ho).
    + now apply run_invalid.
  - now apply run_empty.
Qed.

Lemma replay_entry (st : State) (u : jsstring) :
  replay st (entry u) = loading_state st.
Proof. reflexivity. Qed.

Lemma replay_through_title (st : State) (u : jsstring) (lt tail : list Event) :
  Forall (fun e => is_title_event e = true) lt ->
  replay st (entry u ++ lt ++ tail) = replay (loading_state st) tail.
Proof.
  intros Hlt. rewrite !replay_app, replay_entry. f_equal.
  apply replay_no_setter.
  eapply Forall_impl; [|exact Hlt]. apply title_event_not_setter.
Qed.

Lemma replay_success (st : State) (u : jsstring) (lt : list Event) (r : Summary.t) :
  Forall (fun e => is_title_event e = true) lt ->
  replay st (entry u ++ lt ++ success_events u r) = success_state st r.
Proof. intros Hlt. now rewrite replay_through_title. Qed.

Lemma replay_failure (st : State) (u : jsstring) (lt : list Event) (t : Thrown) :
  Forall (fun e => is_title_event e = true) lt ->
  replay st (entry u ++ lt ++ failure_events u t) = failed_state st (error_message t).
Proof. intros Hlt. now rewrite replay_through_title. Qed.

Lemma title_events_exclude (e : Event) (lt : list Event) :
  Forall (fun e => is_title_event e = true) lt ->
  is_title_event e = false -> ~ In e lt.
Proof.
  intros Hlt He Hin. rewrite Forall_forall in Hlt.
  specialize (Hlt _ Hin). congruence.
Qed.

End Handler.

Section Inversions.

Variable env : Env.
Variable st : State.

(** The summarization call is made only by a well-formed submission
    whose title extraction has returned. *)
Lemma summarization_called_inv :
  summarization_called env st ->
  well_formed env st
  /\ exists title, outcome (extractTitle env (url st)) = Returns title.
Proof.
  unfold summarization_called.
  pose proof (extractTitle_events env (url st)) as Hlt.
  destruct (handleSubmit_run env st)
    as [He|He Hu|Hwf Ho|title Hwf Ho Hs|title t Hwf Ho Hs|title d Hwf Ho Hs];
    unfold log; cbn [fst]; intros Hin; eauto.
  - simpl in Hin. intuition discriminate.
  - simpl in Hin. intuition discriminate.
  - exfalso. apply in_app_or in Hin. destruct Hin as [Hin|Hin].
    + simpl in Hin. intuition discriminate.
    + now apply (title_events_exclude (ScrapeAndSummarize (url st)) Hlt).
Qed.

(** Every record the handler stores is the object literal built from the
    extracted title and the summarization response. *)
Lemma stored_record_inv (r : Summary.t) :
  In r (stored_records (log (handleSubmit env st))) ->
  exists title d,
    outcome (extractTitle env (url st)) = Returns title
    /\ scrapeAndSummarize env (url st) = Returns d
    /\ r = summaryData (url st) title d.
Proof.
  pose proof (extractTitle_events env (url st)) as Hlt.
  destruct (handleSubmit_run env st)
    as [He|He Hu|Hwf Ho|title Hwf Ho Hs|title t Hwf Ho Hs|title d Hwf Ho Hs];
    unfold log; cbn [fst]; fold (log (extractTitle env (url st)));
    rewrite ?stored_records_app, ?(stored_records_title_events Hlt);
    simpl; intros Hin; try tauto.
  destruct Hin as [<-|[]]. eauto.
Qed.

End Inversions.

(** * The claims *)

Lemma last_success_events (l : list Event) (u : jsstring) (r : Summary.t) (d : Event) :
  last (l ++ success_events u r) d = SetIsLoading false.
Proof.
  change (success_events u r)
    with ([ScrapeAndSummarize u; SetSummary (Some r);
           ToastSuccess (lit "Blog summarized successfully!")] ++ [SetIsLoading false]).
  rewrite app_assoc. apply last_last.
Qed.

Lemma last_failure_events (l : list Event) (u : jsstring) (t : Thrown) (d : Event) :
  last (l ++ failure_events u t) d = SetIsLoading false.
Proof.
  change (failure_events u t)
    with ([ScrapeAndSummarize u; ConsoleError (lit "Error:") t; SetError (error_message t);
           ToastError (lit "Failed to process blog")] ++ [SetIsLoading false]).
  rewrite app_assoc. apply last_last.
Qed.

Lemma stored_records_success (u : jsstring) (lt : list Event) (r : Summary.t) :
  Forall (fun e => is_title_event e = true) lt ->
  stored_records (entry u ++ lt ++ success_events u r) = [r].
Proof.
  intros Hlt. rewrite !stored_records_app, (stored_records_title_events Hlt). reflexivity.
Qed.

Lemma stored_records_failure (u : jsstring) (lt : list Event) (t : Thrown) :
  Forall (fun e => is_title_event e = true) lt ->
  stored_records (entry u ++ lt ++ failure_events u t) = [].
Proof.
  intros Hlt. rewrite !stored_records_app, (stored_records_title_events Hlt). reflexivity.
Qed.

(** C10: a submission that has entered Loading and completes has reset the
    loading flag: the last call of the handler is [setIsLoading(false)],
    the state it leaves is not Loading, and this holds on the path that
    stored a record as on the path where the summarization call threw. *)
Theorem loading_flag_reset_on_completion (env : Env) (st : State) :
  In (SetIsLoading true) (log (handleSubmit env st)) ->
  outcome (handleSubmit env st) <> Pending ->
  isLoading (submit env st) = false
  /\ request_state (submit env st) <> Loading
  /\ last (log (handleSubmit env st)) PreventDefault = SetIsLoading false
  /\ ((exists r, stored_records (log (handleSubmit env st)) = [r]
                 /\ submit env st = success_state st r)
      \/ (exists t, scrapeAndSummarize env (url st) = Throws t
                    /\ submit env st = failed_state st (error_message t))).
Proof.
  unfold submit.
  pose proof (extractTitle_events env (url st)) as Hlt.
  destruct (handleSubmit_run env st) as [He|He Hu|Hwf Ho|title Hwf Ho Hs|title t Hwf Ho Hs|title d Hwf Ho Hs];
    unfold log, outcome; cbn [fst snd]; intros Hin Hdone.
  - simpl in Hin. intuition discriminate.
  - simpl in Hin. intuition discriminate.
  - congruence.
  - congruence.
  - fold (log (extractTitle env (url st))).
    rewrite (replay_failure st (url st) t Hlt), app_assoc, last_failure_events.
    split; [reflexivity|]. split; [|split; [reflexivity|]].
    + unfold request_state; cbn. destruct (truthy (error_message t)); discriminate.
    + right. exists t. split; [assumption|reflexivity].
  - fold (log (extractTitle env (url st))).
    rewrite (replay_success st (url st) _ Hlt), (stored_records_success _ _ Hlt),
      app_assoc, last_success_events.
    split; [reflexivity|]. split; [discriminate|]. split; [reflexivity|].
    left. eexists. split; reflexivity.
Qed.

Lemma loading_flag_reset_witness :
  In (SetIsLoading true) (log (handleSubmit (env_ok (lit "a b c d")) (resubmitted sample_url)))
  /\ outcome (handleSubmit (env_ok (lit "a b c d")) (resubmitted sample_url)) <> Pending
  /\ isLoading (submit (env_ok (lit "a b c d")) (resubmitted sample_url)) = false.
Proof.
  assert (H1 : In (SetIsLoading true)
                 (log (handleSubmit (env_ok (lit "a b c d")) (resubmitted sample_url))))
    by in_log.
  assert (H2 : outcome (handleSubmit (env_ok (lit "a b c d")) (resubmitted sample_url))
               <> Pending)
    by (vm_compute; discriminate).
  split; [exact H1|]. split; [exact H2|].
  exact (proj1 (loading_flag_reset_on_completion _ _ H1 H2)).
Defined.

Lemma has_message_nonempty (t : Thrown) :
  has_message t = true -> truthy (error_message t) = true.
Proof. destruct t as [m|]; [trivial|reflexivity]. Qed.

Lemma truthy_nonempty (s : jsstring) : truthy s = true <-> s <> [].
Proof. destruct s; simpl; split; congruence. Qed.

(** C4, as the code has it: when the summarization call throws, the
    handler returns normally (the thrown value does not escape), stores no
    record, and leaves the state with the loading flag down, the earlier
    result cleared and the error set to the thrown Error's message, or to
    the fixed text for a value that is not an Error.  The state is Failed
    with a non-empty message whenever that message is not empty. *)
Theorem summarization_failure_is_caught (env : Env) (st : State) (t : Thrown) :
  summarization_fails env st t ->
  outcome (handleSubmit env st) = Returns tt
  /\ stored_records (log (handleSubmit env st)) = []
  /\ submit env st = failed_state st (error_message t)
  /\ summary (submit env st) = None
  /\ (t = NotAnError -> error (submit env st) = lit "Failed to process blog")
  /\ (has_message t = true ->
      exists message, message <> []
                      /\ request_state (submit env st) = Failed message).
Proof.
  intros [Hcalled Hthrows].
  destruct (summarization_called_inv env st Hcalled) as [Hwf [title Ho]].
  pose proof (extractTitle_events env (url st)) as Hlt.
  assert (Hrun : handleSubmit env st
                 = (entry (url st) ++ log (extractTitle env (url st))
                      ++ failure_events (url st) t, Returns tt)).
  { rewrite (handleSubmit_well_formed Hwf), attempt_run, Ho, Hthrows. reflexivity. }
  assert (Hlog : log (handleSubmit env st)
                 = entry (url st) ++ log (extractTitle env (url st))
                     ++ failure_events (url st) t) by now rewrite Hrun.
  assert (Hout : outcome (handleSubmit env st) = Returns tt) by now rewrite Hrun.
  unfold submit. rewrite Hlog, Hout.
  rewrite (replay_failure st (url st) t Hlt), (stored_records_failure _ t Hlt).
  split; [reflexivity|]. split; [reflexivity|]. split; [reflexivity|].
  split; [reflexivity|]. split.
  - intros ->. reflexivity.
  - intros Hm. apply has_message_nonempty in Hm.
    exists (error_message t). split; [now apply truthy_nonempty|].
    unfold request_state. cbn. now rewrite Hm.
Qed.

Lemma summarization_failure_witness :
  summarization_fails (env_summarization_throws (ErrorInstance (lit "Request failed")))
    (resubmitted sample_url) (ErrorInstance (lit "Request failed"))
  /\ request_state (submit (env_summarization_throws (ErrorInstance (lit "Request failed")))
                      (resubmitted sample_url))
     = Failed (lit "Request failed").
Proof.
  assert (H : summarization_fails
                (env_summarization_throws (ErrorInstance (lit "Request failed")))
                (resubmitted sample_url) (ErrorInstance (lit "Request failed"))).
  { split; [in_log|reflexivity]. }
  split; [exact H|].
  pose proof (summarization_failure_is_caught H) as [_ [_ [E _]]].
  rewrite E. reflexivity.
Defined.

(** C4 as stated fails when the thrown Error has an empty message: the
    error is set to the empty string and the alert is not rendered. *)
Lemma failure_with_empty_message :
  ~ failure_state_as_specified (env_summarization_throws (ErrorInstance []))
      (resubmitted sample_url).
Proof.
  intros H. destruct (H (ErrorInstance [])) as [m [Hne Hst]].
  - split; [in_log|reflexivity].
  - vm_compute in Hst. discriminate.
Qed.











Lemma wordCount_summaryData (u title : jsstring) (d : Scraped.t) :
  Summary.wordCount (summaryData u title d)
  = Z.of_nat (List.length (split SPACE (Summary.summary (summaryData u title d)))).
Proof. reflexivity. Qed.

(** C2, as the code has it: the word count of a stored record is the
    number of pieces of its summary cut at every U+0020 space, one more
    than the number of spaces.  For non-empty, whitespace-free words
    joined by single spaces this is the number of words and the number of
    whitespace-separated tokens; for ["a b c d"] it is 4. *)
Theorem wordCount_counts_space_separated_pieces (env : Env) (st : State) (r : Summary.t) :
  In r (stored_records (log (handleSubmit env st))) ->
  Summary.wordCount r = Z.of_nat (List.length (split SPACE (Summary.summary r)))
  /\ Summary.wordCount r = (1 + Z.of_nat (count_spaces (Summary.summary r)))%Z
  /\ (forall words, words <> [] -> Forall is_word words ->
        Summary.summary r = join SPACE words ->
        Summary.wordCount r = Z.of_nat (List.length words)
        /\ Summary.wordCount r = Z.of_nat (whitespace_token_count (Summary.summary r)))
  /\ (Summary.summary r = lit "a b c d" -> Summary.wordCount r = 4%Z).
Proof.
  intros Hin. destruct (stored_record_inv env st r Hin) as [title [d [_ [_ ->]]]].
  rewrite wordCount_summaryData.
  split; [reflexivity|]. split; [|split].
  - rewrite length_split. unfold count_spaces. lia.
  - intros words Hne Hwords ->. split.
    + rewrite split_join; trivial.
      eapply Forall_impl; [|exact Hwords]. apply is_word_no_space.
    + unfold whitespace_token_count. rewrite count_tokens_join by assumption.
      rewrite split_join.
      * destruct words; [congruence|]. simpl. f_equal. lia.
      * assumption.
      * eapply Forall_impl; [|exact Hwords]. apply is_word_no_space.
  - intros ->. reflexivity.
Qed.

Lemma wordCount_witness :
  In (summaryData sample_url (lit "My Post")
        {| Scraped.summary := lit "a b c d"; Scraped.urduSummary := lit "khulasa" |})
     (stored_records (log (handleSubmit (env_ok (lit "a b c d")) (submitted sample_url))))
  /\ Summary.wordCount
       (summaryData sample_url (lit "My Post")
          {| Scraped.summary := lit "a b c d"; Scraped.urduSummary := lit "khulasa" |})
     = 4%Z.
Proof.
  assert (H : In (summaryData sample_url (lit "My Post")
                    {| Scraped.summary := lit "a b c d"; Scraped.urduSummary := lit "khulasa" |})
                (stored_records
                   (log (handleSubmit (env_ok (lit "a b c d")) (submitted sample_url)))))
    by in_log.
  split; [exact H|].
  exact (proj2 (proj2 (proj2 (wordCount_counts_space_separated_pieces _ _ _ H))) eq_refl).
Defined.

(** C2 as stated fails on a summary whose two words are separated by a
    line break: two whitespace-separated tokens, one piece. *)
Lemma wordCount_of_two_lines :
  ~ wordCount_as_specified (env_ok two_lines) (submitted sample_url).
Proof.
  intros H.
  specialize (H (summaryData sample_url (lit "My Post")
                   {| Scraped.summary := two_lines; Scraped.urduSummary := lit "khulasa" |})).
  assert (Hin : In (summaryData sample_url (lit "My Post")
                      {| Scraped.summary := two_lines; Scraped.urduSummary := lit "khulasa" |})
                  (stored_records
                     (log (handleSubmit (env_ok two_lines) (submitted sample_url)))))
    by in_log.
  specialize (H Hin). vm_compute in H. discriminate.
Qed.

(** C6, as the code has it: the reading time of a stored record is the
    ceiling of its word count over 200, the least number of minutes [k]
    with [wordCount <= 200 k], where the word count is the one the code
    stores: one more than the number of U+0020 spaces of the summary.  For
    a summary of non-empty, whitespace-free words joined by single spaces
    the word count is the number of words, which is also its number of
    whitespace-separated tokens; 600 such words give 3 and 4 such words
    give 1. *)
Theorem readingTime_is_ceiling (env : Env) (st : State) (r : Summary.t) :
  In r (stored_records (log (handleSubmit env st))) ->
  Summary.wordCount r = (1 + Z.of_nat (count_spaces (Summary.summary r)))%Z
  /\ Summary.readingTime r = Math_ceil_div (Summary.wordCount r) 200
  /\ (200 * (Summary.readingTime r - 1) < Summary.wordCount r
      <= 200 * Summary.readingTime r)%Z
  /\ (forall k, (Summary.wordCount r <= 200 * k)%Z -> (Summary.readingTime r <= k)%Z)
  /\ (forall words, words <> [] -> Forall is_word words ->
        Summary.summary r = join SPACE words ->
        whitespace_token_count (Summary.summary r) = List.length words
        /\ Summary.wordCount r = Z.of_nat (List.length words)
        /\ (200 * (Summary.readingTime r - 1) < Z.of_nat (List.length words)
            <= 200 * Summary.readingTime r)%Z
        /\ (List.length words = 600%nat -> Summary.readingTime r = 3%Z)
        /\ (List.length words = 4%nat -> Summary.readingTime r = 1%Z)).
Proof.
  intros Hin. destruct (stored_record_inv env st r Hin) as [title [d [_ [_ ->]]]].
  assert (E : Summary.readingTime (summaryData (url st) title d)
              = Math_ceil_div (Summary.wordCount (summaryData (url st) title d)) 200)
    by reflexivity.
  pose proof (Math_ceil_div_200_bounds (Summary.wordCount (summaryData (url st) title d))) as B.
  rewrite <- E in B.
  assert (W : Summary.wordCount (summaryData (url st) title d)
              = (1 + Z.of_nat (count_spaces
                                 (Summary.summary (summaryData (url st) title d))))%Z).
  { rewrite wordCount_summaryData, length_split. unfold count_spaces. lia. }
  split; [exact W|]. split; [exact E|]. split; [exact B|]. split; [intros k Hk; lia|].
  intros words Hne Hwords Hs.
  assert (Hfree : Forall (fun w => ~ In SPACE w) words)
    by (eapply Forall_impl; [|exact Hwords]; apply is_word_no_space).
  assert (Hwc : Summary.wordCount (summaryData (url st) title d)
                = Z.of_nat (List.length words))
    by (rewrite wordCount_summaryData, Hs, split_join; trivial).
  assert (Htok : whitespace_token_count (Summary.summary (summaryData (url st) title d))
                 = List.length words).
  { rewrite Hs. unfold whitespace_token_count. rewrite count_tokens_join by assumption.
    destruct words; [congruence|]. simpl. lia. }
  split; [exact Htok|]. split; [exact Hwc|]. repeat split; lia.
Qed.

Lemma readingTime_witness :
  In (summaryData sample_url (lit "My Post")
        {| Scraped.summary := repeated_words (lit "word") 600;
           Scraped.urduSummary := lit "khulasa" |})
     (stored_records
        (log (handleSubmit (env_ok (repeated_words (lit "word") 600)) (submitted sample_url))))
  /\ repeat (lit "word") 600 <> []
  /\ Forall is_word (repeat (lit "word") 600)
  /\ Summary.readingTime
       (summaryData sample_url (lit "My Post")
          {| Scraped.summary := repeated_words (lit "word") 600;
             Scraped.urduSummary := lit "khulasa" |}) = 3%Z.
Proof.
  assert (H : In (summaryData sample_url (lit "My Post")
                    {| Scraped.summary := repeated_words (lit "word") 600;
                       Scraped.urduSummary := lit "khulasa" |})
                (stored_records
                   (log (handleSubmit (env_ok (repeated_words (lit "word") 600))
                           (submitted sample_url)))))
    by in_log.
  assert (Hne : repeat (lit "word") 600 <> []) by discriminate.
  assert (Hw : Forall is_word (repeat (lit "word") 600)).
  { apply Forall_forall. intros w Hin. apply repeat_spec in Hin. subst w.
    split; [discriminate|repeat constructor]. }
  split; [exact H|]. split; [exact Hne|]. split; [exact Hw|].
  destruct (proj2 (proj2 (proj2 (proj2 (readingTime_is_ceiling _ _ _ H))))
              (repeat (lit "word") 600) Hne Hw eq_refl) as [_ [_ [_ [H600 _]]]].
  apply H600. apply repeat_length.
Defined.

(** C6 as stated fails on summaries of 600 words that are not joined by
    single spaces: one word per line gives a reading time of 1, and a
    space after the last word gives 4. *)
Lemma readingTime_of_600_words :
  ~ readingTime_as_specified (env_ok (words_per_line (lit "word") 600)) (submitted sample_url)
  /\ ~ readingTime_as_specified (env_ok (words_then_space (lit "word") 600))
         (submitted sample_url).
Proof.
  split; intros H.
  - destruct (H (summaryData sample_url (lit "My Post")
                   {| Scraped.summary := words_per_line (lit "word") 600;
                      Scraped.urduSummary := lit "khulasa" |})) as [_ [H600 _]];
      [in_log|].
    assert (T : whitespace_token_count (words_per_line (lit "word") 600) = 600%nat)
      by (vm_compute; reflexivity).
    specialize (H600 T). vm_compute in H600. discriminate.
  - destruct (H (summaryData sample_url (lit "My Post")
                   {| Scraped.summary := words_then_space (lit "word") 600;
                      Scraped.urduSummary := lit "khulasa" |})) as [_ [H600 _]];
      [in_log|].
    assert (T : whitespace_token_count (words_then_space (lit "word") 600) = 600%nat)
      by (vm_compute; reflexivity).
    specialize (H600 T). vm_compute in H600. discriminate.
Qed.

(** C9: a stored record whose summary is the empty string has word count
    1 and reading time 1, the empty string being cut into one empty
    piece. *)
Theorem empty_summary_counts_one_word (env : Env) (st : State) (r : Summary.t) :
  In r (stored_records (log (handleSubmit env st))) ->
  Summary.summary r = [] ->
  split SPACE (Summary.summary r) = [[]]
  /\ Summary.wordCount r = 1%Z
  /\ Summary.readingTime r = 1%Z.
Proof.
  intros Hin. destruct (stored_record_inv env st r Hin) as [title [d [_ [_ ->]]]].
  unfold summaryData. cbn [Summary.summary Summary.wordCount Summary.readingTime].
  intros ->. repeat split.
Qed.

Lemma empty_summary_witness :
  In (summaryData sample_url (lit "My Post")
        {| Scraped.summary := []; Scraped.urduSummary := lit "khulasa" |})
     (stored_records (log (handleSubmit (env_ok []) (submitted sample_url))))
  /\ Summary.wordCount
       (summaryData sample_url (lit "My Post")
          {| Scraped.summary := []; Scraped.urduSummary := lit "khulasa" |}) = 1%Z
  /\ Summary.readingTime
       (summaryData sample_url (lit "My Post")
          {| Scraped.summary := []; Scraped.urduSummary := lit "khulasa" |}) = 1%Z.
Proof.
  assert (H : In (summaryData sample_url (lit "My Post")
                    {| Scraped.summary := []; Scraped.urduSummary := lit "khulasa" |})
                (stored_records (log (handleSubmit (env_ok []) (submitted sample_url)))))
    by in_log.
  split; [exact H|].
  exact (proj2 (empty_summary_counts_one_word _ _ _ H eq_refl)).
Defined.

(** C8: for the record on display, the three copy handlers hand to the
    clipboard, each in one call, the summary unchanged, the summary after
    the header line ["Blog Summary"] and an empty line, and the Urdu
    summary unchanged. *)
Theorem copy_actions_place_exact_text (st : State) (r : Summary.t) :
  summary st = Some r ->
  exists copy_summary copy_full copy_urdu,
    copy_handlers st = [copy_summary; copy_full; copy_urdu]
    /\ clipboard_writes (log copy_summary) = [Summary.summary r]
    /\ clipboard_writes (log copy_full)
       = [lit "Blog Summary" ++ [0x0A; 0x0A]%N ++ Summary.summary r]
    /\ clipboard_writes (log copy_urdu) = [Summary.urduSummary r]
    /\ outcome copy_summary = Returns tt
    /\ outcome copy_full = Returns tt
    /\ outcome copy_urdu = Returns tt.
Proof.
  intros Hs. unfold copy_handlers. rewrite Hs.
  exists (onCopySummary r), (onCopyFullSummary r), (onCopyUrdu r).
  repeat split.
Qed.

Lemma copy_actions_witness :
  summary (resubmitted sample_url) = Some earlier_record
  /\ map (fun h => clipboard_writes (log h)) (copy_handlers (resubmitted sample_url))
     = [[lit "old summary"];
        [lit "Blog Summary" ++ [0x0A; 0x0A]%N ++ lit "old summary"];
        [lit "purana"]].
Proof.
  split; [reflexivity|].
  destruct (copy_actions_place_exact_text (resubmitted sample_url) eq_refl)
    as [h1 [h2 [h3 [E [W1 [W2 [W3 _]]]]]]].
  rewrite E. cbn [map]. rewrite W1, W2, W3. reflexivity.
Defined.

Lemma network_snapshots_app (st : State) (l1 l2 : list Event) :
  network_snapshots st (l1 ++ l2)
  = network_snapshots st l1 ++ network_snapshots (replay st l1) l2.
Proof.
  revert st. induction l1 as [|e l IH]; intros st; [reflexivity|].
  simpl. rewrite IH, app_assoc. reflexivity.
Qed.

Lemma network_snapshots_title (st : State) (l : list Event) :
  Forall (fun e => is_title_event e = true) l ->
  Forall (fun s => s = st) (network_snapshots st l).
Proof.
  induction 1 as [|e l He _ IH]; simpl; [constructor|].
  apply Forall_app. split.
  - destruct (is_network e); repeat constructor.
  - destruct e; try discriminate; exact IH.
Qed.

(** The network calls of a run past the guards are all made in the
    Loading state. *)
Lemma network_snapshots_run (st : State) (u : jsstring) (lt rest : list Event) :
  Forall (fun e => is_title_event e = true) lt ->
  (rest = [] \/ exists rest', rest = ScrapeAndSummarize u :: rest'
                              /\ Forall (fun e => is_network e = false) rest') ->
  Forall (fun s => s = loading_state st) (network_snapshots st (entry u ++ lt ++ rest)).
Proof.
  intros Hlt Hrest.
  rewrite !network_snapshots_app, replay_entry.
  apply Forall_app. split; [constructor|].
  apply Forall_app. split; [now apply network_snapshots_title|].
  rewrite (replay_no_setter (l := lt)).
  - destruct Hrest as [->|[rest' [-> Hrest']]]; [constructor|].
    simpl. constructor; [reflexivity|].
    assert (G : forall s, network_snapshots s rest' = []).
    { induction Hrest' as [|e l He _ IH]; intros s; [reflexivity|].
      simpl. rewrite He. apply IH. }
    rewrite G. constructor.
  - eapply Forall_impl; [|exact Hlt]. apply title_event_not_setter.
Qed.

(** C7: a well-formed submission first enters Loading: the first state
    setter it calls is [setIsLoading(true)], the entry events hold no
    network call and leave the state Loading with the error and the
    result cleared, whatever the state was, and every network call of the
    run is made in that state.  The events of the title extractor come
    next and in one block; the summarization call comes after them, only
    once the extractor has returned, and no proxy call follows it. *)
Theorem loading_before_network_calls (env : Env) (st : State) :
  well_formed env st ->
  exists rest,
    log (handleSubmit env st) = entry (url st) ++ log (extractTitle env (url st)) ++ rest
    /\ find is_setter (log (handleSubmit env st)) = Some (SetIsLoading true)
    /\ Forall (fun e => is_network e = false) (entry (url st))
    /\ replay st (entry (url st)) = loading_state st
    /\ request_state (loading_state st) = Loading
    /\ error (loading_state st) = []
    /\ summary (loading_state st) = None
    /\ Forall (fun s => s = loading_state st)
         (network_snapshots st (log (handleSubmit env st)))
    /\ ~ In (ScrapeAndSummarize (url st)) (entry (url st) ++ log (extractTitle env (url st)))
    /\ Forall (fun e => is_proxy_call e = false) rest
    /\ (rest = [] \/ exists rest', rest = ScrapeAndSummarize (url st) :: rest')
    /\ (rest <> [] -> exists title, outcome (extractTitle env (url st)) = Returns title).
Proof.
  intros Hwf.
  pose proof (extractTitle_events env (url st)) as Hlt.
  assert (Hnot : ~ In (ScrapeAndSummarize (url st))
                   (entry (url st) ++ log (extractTitle env (url st)))).
  { intros Hin. apply in_app_or in Hin. destruct Hin as [Hin|Hin].
    - simpl in Hin. intuition discriminate.
    - now apply (title_events_exclude (ScrapeAndSummarize (url st)) Hlt). }
  assert (Hentry : Forall (fun e => is_network e = false) (entry (url st)))
    by (repeat constructor).
  assert (Hshape : exists rest,
             log (handleSubmit env st)
             = entry (url st) ++ log (extractTitle env (url st)) ++ rest
             /\ Forall (fun e => is_proxy_call e = false) rest
             /\ (rest = [] \/ exists rest', rest = ScrapeAndSummarize (url st) :: rest'
                                            /\ Forall (fun e => is_network e = false) rest')
             /\ (rest <> [] -> exists title,
                    outcome (extractTitle env (url st)) = Returns title)).
  { rewrite (handleSubmit_well_formed Hwf), attempt_run. unfold log at 1; cbn [fst].
    destruct (outcome (extractTitle env (url st))) as [title|t|] eqn:Ho.
    - destruct (scrapeAndSummarize env (url st)) as [d|t|]; unfold log at 1; cbn [fst];
        eexists; (split; [reflexivity|]);
        (split; [repeat constructor|]);
        (split; [right; eexists; split; [reflexivity|repeat constructor]|]); eauto.
    - now destruct (extractTitle_never_throws env (url st) (t := t)).
    - exists []. unfold log at 1; cbn [fst]. rewrite app_nil_r.
      split; [reflexivity|]. split; [constructor|]. split; [now left|congruence]. }
  destruct Hshape as [rest [Hlog [Hproxy [Hrest Hret]]]].
  exists rest. rewrite Hlog.
  split; [reflexivity|]. split; [reflexivity|]. split; [exact Hentry|].
  split; [reflexivity|]. split; [reflexivity|]. split; [reflexivity|].
  split; [reflexivity|].
  split; [now apply network_snapshots_run|].
  split; [exact Hnot|]. split; [exact Hproxy|].
  split; [|exact Hret].
  destruct Hrest as [->|[rest' [-> _]]]; [now left|right; eauto].
Qed.

Lemma loading_before_network_calls_witness :
  well_formed (env_ok (lit "a b c d")) (resubmitted sample_url)
  /\ Forall (fun s => s = loading_state (resubmitted sample_url))
       (network_snapshots (resubmitted sample_url)
          (log (handleSubmit (env_ok (lit "a b c d")) (resubmitted sample_url)))).
Proof.
  assert (H : well_formed (env_ok (lit "a b c d")) (resubmitted sample_url))
    by (split; [reflexivity|vm_compute; discriminate]).
  split; [exact H|].
  destruct (loading_before_network_calls H) as [rest [_ [_ [_ [_ [_ [_ [_ [S _]]]]]]]]].
  exact S.
Defined.

Lemma scheme_state_nonempty (input buffer sch remaining : jsstring) :
  URLParser.scheme_state buffer input = Some (sch, remaining) ->
  buffer <> [] -> sch <> [].
Proof.
  revert buffer. induction input as [|c r IH]; intros buffer; simpl; [discriminate|].
  destruct (URLParser.is_scheme_char c).
  - intros H _. apply (IH _ H). now destruct buffer.
  - destruct (c =? 58)%N; [|discriminate].
    intros H. injection H as <- _. trivial.
Qed.

(** A parsed URL has a scheme: without one the parser fails. *)
Lemma new_URL_has_scheme (env : Env) (s : jsstring) (parsed : URLParser.URLRecord) :
  new_URL env s = Some parsed -> URLParser.has_scheme parsed = true.
Proof.
  unfold new_URL, URLParser.parse, URLParser.scheme_start_state.
  destruct (URLParser.preprocess s) as [|c r]; [discriminate|].
  destruct (URLParser.is_ascii_alpha c); [|discriminate].
  destruct (URLParser.scheme_state [URLParser.ascii_lowercase c] r)
    as [[sch remaining]|] eqn:E; [|discriminate].
  assert (Hsch : sch <> []) by (apply (@scheme_state_nonempty _ _ _ _ E); discriminate).
  intros H. assert (Hp : URLParser.scheme parsed = sch).
  { destruct (URLParser.is_special sch || URLParser.starts_with_slash remaining).
    - destruct (authority_states env sch remaining); [|discriminate].
      now injection H as <-.
    - now injection H as <-. }
  unfold URLParser.has_scheme. rewrite Hp. now apply truthy_nonempty.
Qed.

Lemma rejected_run (env : Env) (st : State) :
  rejected env st ->
  handleSubmit env st
  = ([PreventDefault; ToastError (lit "Please enter a blog URL")], Returns tt)
  \/ handleSubmit env st
     = ([PreventDefault; NewURL (url st); ToastError (lit "Please enter a valid URL")],
        Returns tt).
Proof.
  intros Hrej. unfold handleSubmit.
  destruct (truthy (trim (url st))) eqn:Hne; run_step; [|now left].
  destruct Hrej as [Hrej|Hrej]; [congruence|].
  rewrite isValidUrl_run, Hrej. right. reflexivity.
Qed.

(** C3, as the code has it: the validator accepts a string exactly when
    [new URL] parses it, which takes a scheme but no host.  The handler
    turns an empty or whitespace-only input away before the validator
    runs, with no URL parse among its events; and a run turned away by
    either guard makes no network call and leaves the state as it was. *)
Theorem url_validation (env : Env) (s : jsstring) (st : State) :
  (outcome (isValidUrl env s) = Returns true <-> exists parsed, new_URL env s = Some parsed)
  /\ (outcome (isValidUrl env s) = Returns false <-> new_URL env s = None)
  /\ (forall parsed, new_URL env s = Some parsed -> URLParser.has_scheme parsed = true)
  /\ (truthy (trim (url st)) = false ->
      handleSubmit env st
      = ([PreventDefault; ToastError (lit "Please enter a blog URL")], Returns tt)
      /\ Forall (fun e => is_url_parse e = false) (log (handleSubmit env st)))
  /\ (rejected env st ->
      Forall (fun e => is_network e = false) (log (handleSubmit env st))
      /\ submit env st = st).
Proof.
  rewrite isValidUrl_run. unfold outcome; cbn [snd].
  split; [|split; [|split; [|split]]].
  - destruct (new_URL env s) as [parsed|]; split; try discriminate; eauto.
    intros [parsed H]; discriminate.
  - destruct (new_URL env s) as [parsed|]; split; congruence.
  - apply new_URL_has_scheme.
  - intros Hempty. unfold handleSubmit. rewrite Hempty. run_step.
    split; [reflexivity|repeat constructor].
  - intros Hrej. unfold submit.
    destruct (rejected_run Hrej) as [-> | ->]; unfold log; cbn [fst];
      (split; [repeat constructor|now destruct st]).
Qed.

Lemma url_validation_witness :
  truthy (trim (url (resubmitted (lit "   ")))) = false
  /\ rejected (env_ok []) (resubmitted (lit "example.com"))
  /\ log (handleSubmit (env_ok []) (resubmitted (lit "   ")))
     = [PreventDefault; ToastError (lit "Please enter a blog URL")]
  /\ submit (env_ok []) (resubmitted (lit "example.com")) = resubmitted (lit "example.com").
Proof.
  assert (H1 : truthy (trim (url (resubmitted (lit "   ")))) = false) by reflexivity.
  assert (H2 : rejected (env_ok []) (resubmitted (lit "example.com")))
    by (right; reflexivity).
  split; [exact H1|]. split; [exact H2|]. split.
  - pose proof (proj1 (proj2 (proj2 (proj2 (url_validation (env_ok []) []
                                           (resubmitted (lit "   "))))))
                  H1) as [E _].
    rewrite E. reflexivity.
  - exact (proj2 (proj2 (proj2 (proj2 (proj2 (url_validation (env_ok []) []
                                               (resubmitted (lit "example.com"))))))
                   H2)).
Defined.

(** C3 as stated fails on ["mailto:a"]: it parses, with a scheme and
    without a host, and the validator accepts it. *)
Lemma mailto_is_accepted_without_host :
  ~ validator_as_specified (env_ok []) (lit "mailto:a").
Proof.
  intros [H _].
  destruct (H eq_refl) as [parsed [Hp [_ Hh]]].
  vm_compute in Hp. injection Hp as <-. discriminate.
Qed.

(** * Further properties of the component *)

(** ** Trimming *)

Lemma forallb_rev_eq (f : N -> bool) (l : list N) : forallb f (rev l) = forallb f l.
Proof.
  induction l as [|c r IH]; [reflexivity|].
  simpl. rewrite forallb_app, IH. simpl. rewrite andb_true_r. apply andb_comm.
Qed.

Lemma trimStart_nil (s : jsstring) :
  trimStart s = [] <-> forallb is_white_space s = true.
Proof.
  induction s as [|c r IH]; simpl; [tauto|].
  destruct (is_white_space c); simpl; [exact IH|]. split; discriminate.
Qed.

Lemma trimStart_head (s : jsstring) (c : N) (r : jsstring) :
  trimStart s = c :: r -> is_white_space c = false.
Proof.
  induction s as [|c' r' IH]; simpl; [discriminate|].
  destruct (is_white_space c') eqn:E; [exact IH|].
  intros H. injection H as <- _. exact E.
Qed.

Lemma trimStart_snoc (l : jsstring) (c : N) :
  is_white_space c = false -> exists l', trimStart (l ++ [c]) = l' ++ [c].
Proof.
  intros Hc. induction l as [|c' r IH]; simpl.
  - rewrite Hc. now exists [].
  - destruct (is_white_space c'); [exact IH|]. now exists (c' :: r).
Qed.

(** [trim] leaves nothing exactly of the strings made of whitespace. *)
Lemma trim_nil (s : jsstring) :
  trim s = [] <-> forallb is_white_space s = true.
Proof.
  unfold trim, trimEnd. split.
  - intros H. apply (f_equal (@rev N)) in H. rewrite rev_involutive in H. simpl in H.
    apply trimStart_nil in H. rewrite forallb_rev_eq in H.
    destruct (trimStart s) as [|c r] eqn:E; [now apply trimStart_nil|].
    apply trimStart_head in E. simpl in H. rewrite E in H. discriminate.
  - intros H. apply trimStart_nil in H. rewrite H. reflexivity.
Qed.

(** What [trim] returns neither starts nor ends with whitespace. *)
Lemma trim_outer (s : jsstring) : starts_or_ends_with_white_space (trim s) = false.
Proof.
  unfold trim, trimEnd.
  destruct (trimStart s) as [|c0 t] eqn:E; [reflexivity|].
  pose proof (trimStart_head _ E) as Hc0.
  destruct (trimStart_snoc (rev t) c0 Hc0) as [l' Hl'].
  change (rev (c0 :: t)) with (rev t ++ [c0]).
  destruct (trimStart (rev t ++ [c0])) as [|u0 u] eqn:Eu.
  - now destruct l'.
  - pose proof (trimStart_head _ Eu) as Hu0.
    rewrite Hl', rev_app_distr. simpl.
    rewrite Hc0. simpl.
    assert (Hrev : c0 :: rev l' = rev u ++ [u0]).
    { change (c0 :: rev l') with (rev [c0] ++ rev l').
      rewrite <- rev_app_distr, <- Hl'. reflexivity. }
    change (match rev l' with [] => c0 | _ :: _ => last (rev l') c0 end)
      with (last (c0 :: rev l') c0).
    rewrite Hrev, last_last. exact Hu0.
Qed.

Lemma truthy_trim_false (s : jsstring) :
  truthy (trim s) = false <-> forallb is_white_space s = true.
Proof.
  rewrite <- trim_nil. destruct (trim s); simpl; split; congruence.
Qed.

(** X1: the first guard turns away exactly the inputs made of whitespace
    only, the empty one included: for those, and for no other input, the
    run is [preventDefault] and the toast asking for a URL. *)
Theorem blank_input_guard (env : Env) (st : State) :
  handleSubmit env st
  = ([PreventDefault; ToastError (lit "Please enter a blog URL")], Returns tt)
  <-> forallb is_white_space (url st) = true.
Proof.
  rewrite <- truthy_trim_false. split.
  - intros H. pose proof (handleSubmit_run env st) as R. rewrite H in R.
    inversion R; try assumption;
      match goal with E : _ ++ _ = _ |- _ => simpl in E; discriminate E end.
  - intros H. unfold handleSubmit. rewrite H. reflexivity.
Qed.

(** ** Shapes of runs *)

Lemma log_pair (A : Type) (l : list Event) (o : Outcome A) : log (l, o) = l.
Proof. reflexivity. Qed.

Lemma outcome_pair (A : Type) (l : list Event) (o : Outcome A) : outcome (l, o) = o.
Proof. reflexivity. Qed.

Lemma filter_title_events (f : Event -> bool) (lt : list Event) :
  (forall e, is_title_event e = true -> f e = false) ->
  Forall (fun e => is_title_event e = true) lt ->
  filter f lt = [].
Proof.
  intros Hf. induction 1 as [|e l He _ IH]; [reflexivity|].
  simpl. now rewrite (Hf e He).
Qed.

Lemma not_well_formed_rejected (env : Env) (st : State) :
  ~ well_formed env st -> rejected env st.
Proof.
  intros H. unfold rejected, well_formed in *.
  destruct (truthy (trim (url st))); [|now left].
  destruct (new_URL env (url st)); [|now right].
  exfalso. apply H. split; [reflexivity|discriminate].
Qed.

Lemma rejected_not_well_formed (env : Env) (st : State) :
  rejected env st -> ~ well_formed env st.
Proof. intros [H|H] [H1 H2]; congruence. Qed.

(** The run of a well-formed submission, by what its awaited calls do. *)
Lemma well_formed_run (env : Env) (st : State) :
  well_formed env st ->
  handleSubmit env st
  = match outcome (extractTitle env (url st)) with
    | Returns title =>
        match scrapeAndSummarize env (url st) with
        | Returns d =>
            (entry (url st) ++ log (extractTitle env (url st))
               ++ success_events (url st) (summaryData (url st) title d), Returns tt)
        | Throws t =>
            (entry (url st) ++ log (extractTitle env (url st))
               ++ failure_events (url st) t, Returns tt)
        | Pending =>
            (entry (url st) ++ log (extractTitle env (url st))
               ++ [ScrapeAndSummarize (url st)], Pending)
        end
    | Throws t => (entry (url st) ++ log (extractTitle env (url st)), Pending)
    | Pending => (entry (url st) ++ log (extractTitle env (url st)), Pending)
    end.
Proof.
  intros Hwf. rewrite (handleSubmit_well_formed Hwf), attempt_run.
  destruct (outcome (extractTitle env (url st))) as [title|t|] eqn:Ho.
  - now destruct (scrapeAndSummarize env (url st)).
  - now destruct (extractTitle_never_throws env (url st) (t := t)).
  - reflexivity.
Qed.

(** The state a well-formed submission leaves. *)
Lemma well_formed_submit (env : Env) (st : State) :
  well_formed env st ->
  submit env st
  = match outcome (extractTitle env (url st)), scrapeAndSummarize env (url st) with
    | Returns title, Returns d => success_state st (summaryData (url st) title d)
    | Returns title, Throws t => failed_state st (error_message t)
    | _, _ => loading_state st
    end.
Proof.
  intros Hwf. unfold submit. rewrite (well_formed_run Hwf).
  pose proof (extractTitle_events env (url st)) as Hlt.
  destruct (outcome (extractTitle env (url st))) as [title|t|].
  - destruct (scrapeAndSummarize env (url st)) as [d|t|]; unfold log at 1; cbn [fst].
    + now apply replay_success.
    + now apply replay_failure.
    + now rewrite replay_through_title.
  - unfold log at 1; cbn [fst].
    rewrite <- (app_nil_r (log (extractTitle env (url st)))) at 1.
    now rewrite replay_through_title.
  - unfold log at 1; cbn [fst].
    rewrite <- (app_nil_r (log (extractTitle env (url st)))) at 1.
    now rewrite replay_through_title.
Qed.

(** X2: the handler never throws, so no rejection reaches the runtime;
    and a run stays pending exactly when the submission is well formed and
    the title extraction, or after it the summarization call, never
    settles. *)
Theorem handler_never_throws (env : Env) (st : State) :
  (forall t, outcome (handleSubmit env st) <> Throws t)
  /\ (outcome (handleSubmit env st) = Pending <->
      well_formed env st
      /\ (outcome (extractTitle env (url st)) = Pending
          \/ ((exists title, outcome (extractTitle env (url st)) = Returns title)
              /\ scrapeAndSummarize env (url st) = Pending))).
Proof.
  destruct (handleSubmit_run env st)
    as [He|He Hu|Hwf Ho|title Hwf Ho Hs|title t Hwf Ho Hs|title d Hwf Ho Hs];
    unfold outcome at 1 2; cbn [snd]; (split; [discriminate|]).
  - split; [discriminate|]. intros [[H _] _]. congruence.
  - split; [discriminate|]. intros [[_ H] _]. congruence.
  - split; [|reflexivity]. intros _. split; [assumption|now left].
  - split; [|reflexivity]. intros _. split; [assumption|]. right. eauto.
  - split; [discriminate|]. intros [_ [H|[_ H]]]; congruence.
  - split; [discriminate|]. intros [_ [H|[_ H]]]; congruence.
Qed.

(** ** Calls and notifications of a run *)

(** The fetches of the title extractor: none when the URL cannot be
    encoded, else the one request to the proxy. *)
Lemma extractTitle_fetches (env : Env) (u : jsstring) :
  filter is_fetch (log (extractTitle env u))
  = match encodeURIComponent env u with
    | Some q => [Fetch (proxy_prefix ++ q)]
    | None => []
    end.
Proof.
  unfold extractTitle.
  destruct (encodeURIComponent env u) as [q|]; run_step; [|reflexivity].
  destruct (fetch env (proxy_prefix ++ q)) as [r| |]; run_step; try reflexivity.
  destruct (json r) as [[|c]| |]; run_step; reflexivity.
Qed.

Lemma title_event_not_summarization (e : Event) :
  is_title_event e = true -> is_summarization e = false.
Proof. destruct e; simpl; congruence. Qed.

Lemma title_event_not_toast (e : Event) :
  is_title_event e = true -> is_toast e = false.
Proof. destruct e; simpl; congruence. Qed.

Lemma title_event_not_success_toast (e : Event) :
  is_title_event e = true -> is_success_toast e = false.
Proof. destruct e; simpl; congruence. Qed.

(** X3: a run makes at most one request to the proxy and at most one
    summarization call: nothing is retried.  The only resource it fetches
    is the proxy endpoint followed by the percent-encoded input, and the
    summarization call is given the input exactly as it stands in the
    state, untrimmed. *)
Theorem one_call_each (env : Env) (st : State) :
  (filter is_fetch (log (handleSubmit env st)) = []
   \/ exists q, encodeURIComponent env (url st) = Some q
                /\ filter is_fetch (log (handleSubmit env st))
                   = [Fetch (proxy_prefix ++ q)])
  /\ (filter is_summarization (log (handleSubmit env st)) = []
      \/ filter is_summarization (log (handleSubmit env st))
         = [ScrapeAndSummarize (url st)]).
Proof.
  pose proof (extractTitle_events env (url st)) as Hlt.
  pose proof (extractTitle_fetches env (url st)) as Hf.
  pose proof (filter_title_events is_summarization title_event_not_summarization Hlt) as Hs.
  assert (Hfetch : filter is_fetch (log (extractTitle env (url st))) = []
                   \/ exists q, encodeURIComponent env (url st) = Some q
                                /\ filter is_fetch (log (extractTitle env (url st)))
                                   = [Fetch (proxy_prefix ++ q)]).
  { destruct (encodeURIComponent env (url st)) as [q|]; [right; eauto|now left]. }
  destruct (handleSubmit_run env st)
    as [He|He Hu|Hwf Ho|title Hwf Ho Hsc|title t Hwf Ho Hsc|title d Hwf Ho Hsc];
    rewrite !log_pair, ?filter_app, ?Hs;
    cbn [filter entry failure_events success_events is_fetch is_summarization app];
    rewrite ?app_nil_r; split; auto.
Qed.

(** X4: the handler reads nothing of the state but the URL: two states
    with the same URL give the same run, and when the submission is well
    formed they are left in the same state, so nothing of an earlier
    result or error survives a new submission. *)
Theorem submission_replaces_state (env : Env) (st1 st2 : State) :
  url st1 = url st2 ->
  handleSubmit env st1 = handleSubmit env st2
  /\ (well_formed env st1 -> submit env st1 = submit env st2).
Proof.
  intros Hu.
  assert (Hrun : handleSubmit env st1 = handleSubmit env st2)
    by (unfold handleSubmit; now rewrite Hu).
  split; [exact Hrun|].
  intros Hwf1.
  assert (Hwf2 : well_formed env st2) by (unfold well_formed in *; now rewrite <- Hu).
  rewrite (well_formed_submit Hwf1), (well_formed_submit Hwf2), Hu.
  unfold success_state, failed_state, loading_state. now rewrite Hu.
Qed.

Lemma submission_replaces_state_witness :
  url (submitted sample_url) = url (resubmitted sample_url)
  /\ well_formed (env_ok (lit "a b c d")) (submitted sample_url)
  /\ submit (env_ok (lit "a b c d")) (submitted sample_url)
     = submit (env_ok (lit "a b c d")) (resubmitted sample_url).
Proof.
  assert (H1 : url (submitted sample_url) = url (resubmitted sample_url)) by reflexivity.
  assert (H2 : well_formed (env_ok (lit "a b c d")) (submitted sample_url))
    by (split; [reflexivity|vm_compute; discriminate]).
  split; [exact H1|]. split; [exact H2|].
  exact (proj2 (submission_replaces_state (env_ok (lit "a b c d")) _ _ H1) H2).
Defined.

(** X5: a run that completes shows exactly one toast and a run that stays
    pending shows none; the toast is the success one exactly when a
    record was stored. *)
Theorem one_toast_per_run (env : Env) (st : State) :
  (outcome (handleSubmit env st) <> Pending ->
   List.length (filter is_toast (log (handleSubmit env st))) = 1%nat)
  /\ (outcome (handleSubmit env st) = Pending ->
      filter is_toast (log (handleSubmit env st)) = [])
  /\ (filter is_success_toast (log (handleSubmit env st)) <> [] <->
      stored_records (log (handleSubmit env st)) <> []).
Proof.
  pose proof (extractTitle_events env (url st)) as Hlt.
  pose proof (filter_title_events is_toast title_event_not_toast Hlt) as Ht.
  pose proof (filter_title_events is_success_toast title_event_not_success_toast Hlt) as Hs.
  pose proof (stored_records_title_events Hlt) as Hr.
  destruct (handleSubmit_run env st)
    as [He|He Hu|Hwf Ho|title Hwf Ho Hsc|title t Hwf Ho Hsc|title d Hwf Ho Hsc];
    rewrite !log_pair, !outcome_pair, ?filter_app, ?stored_records_app, ?Ht, ?Hs, ?Hr;
    cbn [filter entry failure_events success_events is_toast is_success_toast
         stored_records app List.length];
    (split; [|split]); try reflexivity; try congruence;
    split; congruence.
Qed.

(** ** The stored record *)

(** X6: a run stores at most one record, and only when both calls have
    returned: its URL is the input as typed, its title is what the
    extractor returned, and its two summaries are those of the response,
    unchanged. *)
Theorem stored_record_fields (env : Env) (st : State) (r : Summary.t) :
  In r (stored_records (log (handleSubmit env st))) ->
  stored_records (log (handleSubmit env st)) = [r]
  /\ Summary.url r = url st
  /\ outcome (extractTitle env (url st)) = Returns (Summary.title r)
  /\ exists d, scrapeAndSummarize env (url st) = Returns d
               /\ Summary.summary r = Scraped.summary d
               /\ Summary.urduSummary r = Scraped.urduSummary d.
Proof.
  pose proof (extractTitle_events env (url st)) as Hlt.
  pose proof (stored_records_title_events Hlt) as Hr.
  destruct (handleSubmit_run env st)
    as [He|He Hu|Hwf Ho|title Hwf Ho Hsc|title t Hwf Ho Hsc|title d Hwf Ho Hsc];
    rewrite !log_pair, ?stored_records_app, ?Hr;
    cbn [stored_records entry failure_events success_events app];
    intros Hin; try (now destruct Hin).
  destruct Hin as [<-|[]].
  split; [reflexivity|]. split; [reflexivity|]. split; [exact Ho|].
  exists d. repeat split. exact Hsc.
Qed.

Lemma stored_record_fields_witness :
  In (summaryData sample_url (lit "My Post")
        {| Scraped.summary := lit "a b c d"; Scraped.urduSummary := lit "khulasa" |})
     (stored_records (log (handleSubmit (env_ok (lit "a b c d")) (submitted sample_url))))
  /\ Summary.url
       (summaryData sample_url (lit "My Post")
          {| Scraped.summary := lit "a b c d"; Scraped.urduSummary := lit "khulasa" |})
     = url (submitted sample_url).
Proof.
  assert (H : In (summaryData sample_url (lit "My Post")
                    {| Scraped.summary := lit "a b c d"; Scraped.urduSummary := lit "khulasa" |})
                (stored_records
                   (log (handleSubmit (env_ok (lit "a b c d")) (submitted sample_url)))))
    by in_log.
  split; [exact H|].
  exact (proj1 (proj2 (stored_record_fields _ _ _ H))).
Defined.

Lemma count_spaces_le_length (s : jsstring) : (count_spaces s <= List.length s)%nat.
Proof. unfold count_spaces. apply filter_length_le. Qed.

(** X7: the badge of a stored record never shows zero: the word count is
    at least 1 and at most one more than the length of the summary, and
    the reading time is at least 1 and at most the word count. *)
Theorem counts_are_positive (env : Env) (st : State) (r : Summary.t) :
  In r (stored_records (log (handleSubmit env st))) ->
  (1 <= Summary.readingTime r <= Summary.wordCount r)%Z
  /\ (Summary.wordCount r <= Z.of_nat (List.length (Summary.summary r)) + 1)%Z.
Proof.
  intros Hin. destruct (stored_record_inv env st r Hin) as [title [d [_ [_ ->]]]].
  assert (E : Summary.readingTime (summaryData (url st) title d)
              = Math_ceil_div (Summary.wordCount (summaryData (url st) title d)) 200)
    by reflexivity.
  pose proof (Math_ceil_div_200_bounds (Summary.wordCount (summaryData (url st) title d))) as B.
  rewrite <- E in B.
  assert (W : Summary.wordCount (summaryData (url st) title d)
              = Z.of_nat (S (count_spaces (Summary.summary (summaryData (url st) title d))))).
  { rewrite wordCount_summaryData, length_split. reflexivity. }
  pose proof (count_spaces_le_length (Summary.summary (summaryData (url st) title d))) as L.
  lia.
Qed.

Lemma counts_are_positive_witness :
  In (summaryData sample_url (lit "My Post")
        {| Scraped.summary := two_lines; Scraped.urduSummary := lit "khulasa" |})
     (stored_records (log (handleSubmit (env_ok two_lines) (submitted sample_url))))
  /\ (1 <= Summary.readingTime
            (summaryData sample_url (lit "My Post")
               {| Scraped.summary := two_lines; Scraped.urduSummary := lit "khulasa" |}))%Z.
Proof.
  assert (H : In (summaryData sample_url (lit "My Post")
                    {| Scraped.summary := two_lines; Scraped.urduSummary := lit "khulasa" |})
                (stored_records
                   (log (handleSubmit (env_ok two_lines) (submitted sample_url)))))
    by in_log.
  split; [exact H|].
  exact (proj1 (proj1 (counts_are_positive _ _ _ H))).
Defined.

(** ** The extracted title *)

Lemma extractTitle_returns (env : Env) (u title : jsstring) :
  outcome (extractTitle env u) = Returns title ->
  title = BLOG_POST \/ exists x, title = trim x.
Proof.
  unfold extractTitle.
  destruct (encodeURIComponent env u) as [q|]; run_step;
    [|intros H; injection H as <-; now left].
  destruct (fetch env (proxy_prefix ++ q)) as [r| |]; run_step;
    try (intros H; injection H as <-; now left); try discriminate.
  destruct (json r) as [[|c]| |]; run_step;
    try (intros H; injection H as <-; now left); try discriminate.
  intros H. injection H as <-. right. eauto.
Qed.

(** X8: whatever the proxy answers, the title the extractor returns
    neither starts nor ends with whitespace. *)
Theorem title_has_no_outer_whitespace (env : Env) (u title : jsstring) :
  outcome (extractTitle env u) = Returns title ->
  starts_or_ends_with_white_space title = false.
Proof.
  intros H. destruct (extractTitle_returns env u H) as [->|[x ->]].
  - reflexivity.
  - apply trim_outer.
Qed.

Lemma title_has_no_outer_whitespace_witness :
  outcome (extractTitle (env_ok []) sample_url) = Returns (lit "My Post")
  /\ starts_or_ends_with_white_space (lit "My Post") = false.
Proof.
  assert (H : outcome (extractTitle (env_ok []) sample_url) = Returns (lit "My Post"))
    by reflexivity.
  split; [exact H|].
  exact (title_has_no_outer_whitespace (env_ok []) sample_url H).
Defined.

(** X9: the ["Untitled"] default is chosen before the text is trimmed: a
    first title element whose text is not empty but all whitespace gives
    the empty title, not ["Untitled"]. *)
Theorem blank_title_gives_empty_title (env : Env) (u : jsstring)
    (r : Response) (doc : Document) (t : jsstring) (rest : list jsstring) :
  Fetched env u r doc ->
  title_elements doc = t :: rest ->
  t <> [] ->
  forallb is_white_space t = true ->
  outcome (extractTitle env u) = Returns [].
Proof.
  intros Hf Hdoc Hne Hws. rewrite (extractTitle_fetched Hf).
  unfold querySelector_title_textContent. rewrite Hdoc. simpl.
  destruct t as [|c t']; [congruence|]. simpl truthy. cbv iota.
  f_equal. now apply trim_nil.
Qed.

Lemma blank_title_witness :
  Fetched (env_blank_title []) sample_url
    {| ok := true; json := Returns (Data (VString (lit "<title>   </title>"))) |}
    blank_titled_doc
  /\ outcome (extractTitle (env_blank_title []) sample_url) = Returns [].
Proof.
  assert (H : Fetched (env_blank_title []) sample_url
                {| ok := true; json := Returns (Data (VString (lit "<title>   </title>"))) |}
                blank_titled_doc).
  { now apply fetched_document with (q := lit "https%3A%2F%2Fexample.com%2Fpost")
                                    (c := VString (lit "<title>   </title>")). }
  split; [exact H|].
  refine (blank_title_gives_empty_title H (t := lit "   ") (rest := []) eq_refl _ eq_refl).
  discriminate.
Defined.


(** ** What the render shows *)

Lemma well_formed_or_rejected (env : Env) (st : State) :
  well_formed env st \/ rejected env st.
Proof.
  unfold well_formed, rejected.
  destruct (truthy (trim (url st))); [|right; now left].
  destruct (new_URL env (url st)); [left|right; now right].
  split; [reflexivity|discriminate].
Qed.

Lemma rejected_submit (env : Env) (st : State) : rejected env st -> submit env st = st.
Proof.
  intros Hrej. unfold submit.
  destruct (rejected_run Hrej) as [-> | ->]; rewrite log_pair; now destruct st.
Qed.

(** X11: the loading card, the error alert and the result card exclude
    one another after a submission: a well-formed one leaves at most one
    of them on display whatever was shown before, and one turned away
    leaves the display as it was. *)
Theorem status_cards_exclusive (env : Env) (st : State) :
  well_formed env st \/ (List.length (status_panels st) <= 1)%nat ->
  (List.length (status_panels (submit env st)) <= 1)%nat.
Proof.
  intros H. destruct (well_formed_or_rejected env st) as [Hwf|Hrej].
  - rewrite (well_formed_submit Hwf).
    destruct (outcome (extractTitle env (url st))) as [title|t|];
      [destruct (scrapeAndSummarize env (url st)) as [d|t|]|..];
      unfold status_panels, render; cbn [isLoading error summary success_state
        failed_state loading_state truthy app filter is_status_panel List.length];
      try lia.
    destruct (truthy (error_message t)); cbn; lia.
  - rewrite (rejected_submit Hrej).
    destruct H as [Hwf|H]; [|exact H].
    now destruct (rejected_not_well_formed Hrej).
Qed.

Lemma status_cards_exclusive_witness :
  well_formed (env_ok (lit "a b c d")) (cluttered sample_url)
  /\ List.length (status_panels (cluttered sample_url)) = 2%nat
  /\ (List.length (status_panels (submit (env_ok (lit "a b c d")) (cluttered sample_url)))
      <= 1)%nat.
Proof.
  assert (H : well_formed (env_ok (lit "a b c d")) (cluttered sample_url))
    by (split; [reflexivity|vm_compute; discriminate]).
  split; [exact H|]. split; [reflexivity|].
  exact (status_cards_exclusive (or_introl H)).
Defined.

Lemma well_formed_snapshots (env : Env) (st : State) :
  well_formed env st ->
  Forall (fun s => s = loading_state st)
    (network_snapshots st (log (handleSubmit env st))).
Proof.
  intros Hwf. rewrite (well_formed_run Hwf).
  pose proof (extractTitle_events env (url st)) as Hlt.
  destruct (outcome (extractTitle env (url st))) as [title|t|];
    [destruct (scrapeAndSummarize env (url st)) as [d|t|]|..];
    rewrite log_pair;
    try (apply network_snapshots_run; [assumption|];
         right; eexists; split; [reflexivity|repeat constructor]);
    rewrite <- (app_nil_r (log (extractTitle env (url st))));
    apply network_snapshots_run; auto.
Qed.

(** X12: the form guards the handler.  A submit button that is enabled
    means that nothing is loading and that the input is not blank, so the
    first guard of the handler lets the submission through; and every
    network call of a well-formed submission is made in a state whose
    render has the input and the button disabled and shows the loading
    card alone. *)
Theorem controls_guard_the_handler (env : Env) (st : State) :
  (forall input_disabled, In (FormCard input_disabled false) (render st) ->
     isLoading st = false /\ truthy (trim (url st)) = true)
  /\ (well_formed env st ->
      Forall (fun s => In (FormCard true true) (render s)
                       /\ status_panels s = [LoadingCard])
        (network_snapshots st (log (handleSubmit env st)))).
Proof.
  split.
  - intros i Hin. unfold render in Hin.
    destruct (isLoading st), (truthy (trim (url st))), (truthy (error st)),
      (summary st); simpl in Hin;
      repeat (destruct Hin as [Hin|Hin]; try discriminate Hin);
      try contradiction; auto.
  - intros Hwf. eapply Forall_impl; [|exact (well_formed_snapshots Hwf)].
    intros s ->. split; [now left|reflexivity].
Qed.

Lemma controls_guard_the_handler_witness :
  well_formed (env_ok (lit "a b c d")) (resubmitted sample_url)
  /\ Forall (fun s => In (FormCard true true) (render s)
                      /\ status_panels s = [LoadingCard])
       (network_snapshots (resubmitted sample_url)
          (log (handleSubmit (env_ok (lit "a b c d")) (resubmitted sample_url)))).
Proof.
  assert (H : well_formed (env_ok (lit "a b c d")) (resubmitted sample_url))
    by (split; [reflexivity|vm_compute; discriminate]).
  split; [exact H|].
  exact (proj2 (controls_guard_the_handler (env_ok (lit "a b c d"))
                  (resubmitted sample_url)) H).
Defined.

(** ** What the validator accepts *)

Lemma scheme_state_has_colon (input buffer sch remaining : jsstring) :
  URLParser.scheme_state buffer input = Some (sch, remaining) -> has_colon input = true.
Proof.
  revert buffer. induction input as [|c r IH]; intros buffer; simpl; [discriminate|].
  destruct (URLParser.is_scheme_char c).
  - intros H. rewrite (IH _ H). apply orb_true_r.
  - destruct (c =? 58)%N; [reflexivity|discriminate].
Qed.

Lemma strip_leading_incl (s : jsstring) (c : N) :
  In c (URLParser.strip_leading s) -> In c s.
Proof.
  induction s as [|c' r IH]; simpl; [trivial|].
  destruct (URLParser.is_c0_control_or_space c'); [auto|trivial].
Qed.

Lemma preprocess_incl (s : jsstring) (c : N) :
  In c (URLParser.preprocess s) -> In c s.
Proof.
  unfold URLParser.preprocess. intros H.
  apply filter_In in H. destruct H as [H _].
  apply in_rev, strip_leading_incl, in_rev, strip_leading_incl in H. exact H.
Qed.

Lemma new_URL_needs_colon (env : Env) (s : jsstring) :
  has_colon s = false -> new_URL env s = None.
Proof.
  intros Hs. unfold new_URL, URLParser.parse, URLParser.scheme_start_state.
  destruct (URLParser.preprocess s) as [|c r] eqn:Ep; [reflexivity|].
  destruct (URLParser.is_ascii_alpha c); [|reflexivity].
  destruct (URLParser.scheme_state [URLParser.ascii_lowercase c] r)
    as [[sch remaining]|] eqn:E; [|reflexivity].
  exfalso. apply scheme_state_has_colon in E.
  unfold has_colon in E. apply existsb_exists in E. destruct E as [x [Hin Hx]].
  assert (Hin' : In x s) by (apply preprocess_incl; rewrite Ep; now right).
  assert (Hc : has_colon s = true)
    by (unfold has_colon; apply existsb_exists; eauto).
  congruence.
Qed.

(** X13: an input without a colon, such as a bare domain name, is never
    accepted: the validator returns false, and a non-blank one is turned
    away with the invalid-URL toast after the one URL parse, without any
    other call and without a change of state. *)
Theorem input_without_colon_is_rejected (env : Env) (st : State) :
  has_colon (url st) = false ->
  outcome (isValidUrl env (url st)) = Returns false
  /\ submit env st = st
  /\ (truthy (trim (url st)) = true ->
      handleSubmit env st
      = ([PreventDefault; NewURL (url st); ToastError (lit "Please enter a valid URL")],
         Returns tt)).
Proof.
  intros Hc. pose proof (new_URL_needs_colon env _ Hc) as Hn.
  split; [rewrite isValidUrl_run, Hn; reflexivity|].
  split; [apply rejected_submit; now right|].
  intros Hne. unfold handleSubmit. rewrite Hne. run_step.
  rewrite isValidUrl_run, Hn. reflexivity.
Qed.

Lemma input_without_colon_witness :
  has_colon (url (resubmitted (lit "example.com"))) = false
  /\ submit (env_ok []) (resubmitted (lit "example.com")) = resubmitted (lit "example.com").
Proof.
  assert (H : has_colon (url (resubmitted (lit "example.com"))) = false) by reflexivity.
  split; [exact H|].
  exact (proj1 (proj2 (input_without_colon_is_rejected (env_ok []) _ H))).
Defined.

Lemma strip_leading_pad (pad x : jsstring) :
  forallb URLParser.is_c0_control_or_space pad = true ->
  URLParser.strip_leading (pad ++ x) = URLParser.strip_leading x.
Proof.
  induction pad as [|c r IH]; simpl; [trivial|].
  intros H. apply andb_true_iff in H. destruct H as [Hc Hr].
  rewrite Hc. now apply IH.
Qed.

Lemma strip_leading_nil (x : jsstring) :
  URLParser.strip_leading x = [] <-> forallb URLParser.is_c0_control_or_space x = true.
Proof.
  induction x as [|c r IH]; simpl; [tauto|].
  destruct (URLParser.is_c0_control_or_space c); simpl; [exact IH|]. split; discriminate.
Qed.

Lemma strip_leading_app (x y : jsstring) :
  URLParser.strip_leading x <> [] ->
  URLParser.strip_leading (x ++ y) = URLParser.strip_leading x ++ y.
Proof.
  induction x as [|c r IH]; simpl; [congruence|].
  destruct (URLParser.is_c0_control_or_space c); [exact IH|reflexivity].
Qed.

Lemma preprocess_pad (pad1 pad2 s : jsstring) :
  forallb URLParser.is_c0_control_or_space pad1 = true ->
  forallb URLParser.is_c0_control_or_space pad2 = true ->
  URLParser.preprocess (pad1 ++ s ++ pad2) = URLParser.preprocess s.
Proof.
  intros H1 H2. unfold URLParser.preprocess. f_equal. f_equal.
  rewrite strip_leading_pad by assumption.
  destruct (URLParser.strip_leading s) as [|c r] eqn:E.
  - apply strip_leading_nil in E.
    assert (Hall : forallb URLParser.is_c0_control_or_space (s ++ pad2) = true)
      by (rewrite forallb_app, E, H2; reflexivity).
    apply strip_leading_nil in Hall. rewrite Hall. reflexivity.
  - rewrite strip_leading_app by (rewrite E; discriminate).
    rewrite E, rev_app_distr.
    apply strip_leading_pad. now rewrite forallb_rev_eq.
Qed.

(** X14: the validator ignores spaces and control characters around the
    input: padding a string with them changes neither the parsed URL nor
    the validator's answer. *)
Theorem validation_ignores_outer_blanks (env : Env) (pad1 pad2 s : jsstring) :
  forallb URLParser.is_c0_control_or_space pad1 = true ->
  forallb URLParser.is_c0_control_or_space pad2 = true ->
  new_URL env (pad1 ++ s ++ pad2) = new_URL env s
  /\ outcome (isValidUrl env (pad1 ++ s ++ pad2)) = outcome (isValidUrl env s).
Proof.
  intros H1 H2.
  assert (E : new_URL env (pad1 ++ s ++ pad2) = new_URL env s)
    by (unfold new_URL, URLParser.parse; now rewrite preprocess_pad).
  split; [exact E|]. rewrite !isValidUrl_run, !outcome_pair, E. reflexivity.
Qed.

Lemma validation_ignores_outer_blanks_witness :
  forallb URLParser.is_c0_control_or_space (lit " ") = true
  /\ forallb URLParser.is_c0_control_or_space (lit "  ") = true
  /\ outcome (isValidUrl (env_ok []) (lit " " ++ sample_url ++ lit "  ")) = Returns true.
Proof.
  assert (H1 : forallb URLParser.is_c0_control_or_space (lit " ") = true) by reflexivity.
  assert (H2 : forallb URLParser.is_c0_control_or_space (lit "  ") = true) by reflexivity.
  split; [exact H1|]. split; [exact H2|].
  rewrite (proj2 (validation_ignores_outer_blanks (env_ok []) _ _ sample_url H1 H2)).
  reflexivity.
Defined.

Lemma scheme_char_not_blank (c : N) :
  URLParser.is_scheme_char c = true -> URLParser.is_c0_control_or_space c = false.
Proof.
  unfold URLParser.is_scheme_char, URLParser.is_ascii_alpha, URLParser.is_ascii_upper_alpha,
    URLParser.is_ascii_lower_alpha, URLParser.is_ascii_digit,
    URLParser.is_c0_control_or_space.
  rewrite !orb_true_iff, !andb_true_iff, !N.leb_le, !N.eqb_eq, N.leb_gt. lia.
Qed.

Lemma not_blank_not_tab_or_newline (c : N) :
  URLParser.is_c0_control_or_space c = false -> URLParser.is_ascii_tab_or_newline c = false.
Proof.
  unfold URLParser.is_c0_control_or_space, URLParser.is_ascii_tab_or_newline.
  rewrite N.leb_gt, !orb_false_iff, !N.eqb_neq. lia.
Qed.

Lemma strip_leading_id (s : jsstring) :
  forallb (fun c => negb (URLParser.is_c0_control_or_space c)) s = true ->
  URLParser.strip_leading s = s.
Proof.
  destruct s as [|c r]; [reflexivity|]. simpl.
  intros H. apply andb_true_iff in H. destruct H as [Hc _].
  apply negb_true_iff in Hc. now rewrite Hc.
Qed.

(** An input without spaces or control characters is parsed as it is. *)
Lemma preprocess_id (s : jsstring) :
  forallb (fun c => negb (URLParser.is_c0_control_or_space c)) s = true ->
  URLParser.preprocess s = s.
Proof.
  intros H. unfold URLParser.preprocess.
  rewrite (strip_leading_id s H), strip_leading_id, rev_involutive
    by now rewrite forallb_rev_eq.
  clear - H. induction s as [|c r IH]; [reflexivity|].
  simpl in *. apply andb_true_iff in H. destruct H as [Hc Hr].
  apply negb_true_iff in Hc. rewrite (not_blank_not_tab_or_newline _ Hc). simpl.
  now rewrite IH.
Qed.

Lemma scheme_state_reads_scheme (sch buffer rest : jsstring) :
  forallb URLParser.is_scheme_char sch = true ->
  URLParser.scheme_state buffer (sch ++ 0x3A%N :: rest)
  = Some (buffer ++ map URLParser.ascii_lowercase sch, rest).
Proof.
  revert buffer. induction sch as [|c r IH]; intros buffer H; simpl.
  - now rewrite app_nil_r.
  - simpl in H. apply andb_true_iff in H. destruct H as [Hc Hr].
    rewrite Hc, IH by assumption. now rewrite <- app_assoc.
Qed.

(** X15: the validator asks for no host.  Whatever the platform does with
    authorities, an input made of a scheme that is not a special one, a
    colon and a rest that does not start with a slash is accepted, and
    the URL it parses to has no host. *)
Theorem opaque_urls_are_accepted (env : Env) (c : N) (sch rest : jsstring) :
  URLParser.is_ascii_alpha c = true ->
  forallb URLParser.is_scheme_char sch = true ->
  URLParser.is_special (map URLParser.ascii_lowercase (c :: sch)) = false ->
  URLParser.starts_with_slash rest = false ->
  forallb (fun x => negb (URLParser.is_c0_control_or_space x)) rest = true ->
  new_URL env (c :: sch ++ 0x3A%N :: rest)
  = Some {| URLParser.scheme := map URLParser.ascii_lowercase (c :: sch);
            URLParser.host := None |}
  /\ outcome (isValidUrl env (c :: sch ++ 0x3A%N :: rest)) = Returns true.
Proof.
  intros Hc Hsch Hspecial Hslash Hrest.
  assert (Hclean : forallb (fun x => negb (URLParser.is_c0_control_or_space x))
                     (c :: sch ++ 0x3A%N :: rest) = true).
  { change (c :: sch ++ 0x3A%N :: rest) with ((c :: sch) ++ 0x3A%N :: rest).
    rewrite forallb_app. apply andb_true_iff. split.
    - apply forallb_forall. intros x Hx. apply negb_true_iff, scheme_char_not_blank.
      destruct Hx as [<-|Hx].
      + unfold URLParser.is_scheme_char. now rewrite Hc.
      + rewrite forallb_forall in Hsch. now apply Hsch.
    - simpl. exact Hrest. }
  assert (E : new_URL env (c :: sch ++ 0x3A%N :: rest)
              = Some {| URLParser.scheme := map URLParser.ascii_lowercase (c :: sch);
                        URLParser.host := None |}).
  { unfold new_URL, URLParser.parse. rewrite (preprocess_id _ Hclean).
    unfold URLParser.scheme_start_state. rewrite Hc.
    rewrite (scheme_state_reads_scheme _ _ _ Hsch).
    change ([URLParser.ascii_lowercase c] ++ map URLParser.ascii_lowercase sch)
      with (map URLParser.ascii_lowercase (c :: sch)).
    now rewrite Hspecial, Hslash. }
  split; [exact E|]. now rewrite isValidUrl_run, E.
Qed.

Lemma opaque_urls_witness :
  URLParser.is_ascii_alpha 0x6A%N = true
  /\ outcome (isValidUrl (env_ok []) (lit "javascript:alert(1)")) = Returns true.
Proof.
  assert (H1 : URLParser.is_ascii_alpha 0x6A%N = true) by reflexivity.
  split; [exact H1|].
  exact (proj2 (opaque_urls_are_accepted (env_ok []) 0x6A%N (lit "avascript") (lit "alert(1)")
                  H1 eq_refl eq_refl eq_refl eq_refl)).
Defined.
